(** * TagSurvey: the categorisation pipeline of [text_categorizer/categorizer.py]

    A shallow embedding of [extract_categories], [get_ollama_response],
    [process_item] and [process_batch], with the properties of the
    specification stated and settled against it.

    Modelling conventions.
    - A Python [str] is a Rocq [string]; each character stands for the code
      point of the same number, so the model covers text over code points
      0..255.  [str.strip], [str.lower], [str.split] and [in] are written out
      for that range.
    - A Python [set] of labels is a [gset string]; [list(s)] is [elements s],
      whose order is as unspecified as Python's.
    - A JSON document is a value of [json]; a [dict] is an association list in
      insertion order.
    - The file system is a finite map from paths to file contents (a JSON
      document, text that is not JSON, or bytes that are no text), the
      inference service is the reply it gives to a request, and every effect
      of the code (directory creation, file reads and writes, HTTP requests,
      console output) is recorded in a trace. *)

From Stdlib Require Import ZArith Ascii String List Lia DecimalString.
From stdpp Require Import base decidable option list sorting strings gmap.

Local Open Scope string_scope.

(** ** Python string operations *)

Module PyStr.

(** [str.isspace] on one character, code points below 256. *)
Definition isspace (c : ascii) : bool :=
  let n := nat_of_ascii c in
  (((9 <=? n) && (n <=? 13)) || ((28 <=? n) && (n <=? 32))
   || (n =? 133) || (n =? 160))%nat.

(** [str.lower] on one character, code points below 256. *)
Definition lower_char (c : ascii) : ascii :=
  let n := nat_of_ascii c in
  if (((65 <=? n) && (n <=? 90))
      || ((192 <=? n) && (n <=? 222) && negb (n =? 215)))%nat
  then ascii_of_nat (n + 32) else c.

Fixpoint lower (s : string) : string :=
  match s with
  | EmptyString => EmptyString
  | String c s' => String (lower_char c) (lower s')
  end.

Fixpoint lstrip (s : string) : string :=
  match s with
  | EmptyString => EmptyString
  | String c s' => if isspace c then lstrip s' else s
  end.

Fixpoint rstrip (s : string) : string :=
  match s with
  | EmptyString => EmptyString
  | String c s' =>
      match rstrip s' with
      | EmptyString => if isspace c then EmptyString else String c EmptyString
      | r => String c r
      end
  end.

(** [s.strip()] *)
Definition strip (s : string) : string := rstrip (lstrip s).

(** [s.split(sep)] for a one-character separator: never the empty list. *)
Fixpoint split (sep : ascii) (s : string) : list string :=
  match s with
  | EmptyString => [EmptyString]
  | String c s' =>
      if Ascii.eqb c sep then EmptyString :: split sep s'
      else match split sep s' with
           | [] => [String c EmptyString]
           | seg :: segs => String c seg :: segs
           end
  end.

(** [needle in hay] *)
Fixpoint contains (needle hay : string) : bool :=
  String.prefix needle hay
  || match hay with
     | EmptyString => false
     | String _ hay' => contains needle hay'
     end.

(** [sep.join(parts)] *)
Fixpoint join (sep : string) (parts : list string) : string :=
  match parts with
  | [] => EmptyString
  | [p] => p
  | p :: ps => p ++ sep ++ join sep ps
  end.

(** [s.encode()]: UTF-8, for code points below 256. *)
Fixpoint encode (s : string) : list Z :=
  match s with
  | EmptyString => []
  | String c s' =>
      let n := Z.of_nat (nat_of_ascii c) in
      if (n <? 128)%Z then n :: encode s'
      else Z.lor 192 (Z.shiftr n 6) :: Z.lor 128 (Z.land n 63) :: encode s'
  end.

End PyStr.

(** ** [hashlib.md5(...).hexdigest()] *)

Module MD5.

Local Open Scope Z_scope.

Definition mask32 (x : Z) : Z := Z.land x 4294967295.

Definition rotl32 (x : Z) (c : Z) : Z :=
  mask32 (Z.lor (Z.shiftl x c) (Z.shiftr (mask32 x) (32 - c))).

Definition K : list Z :=
  [ 3614090360; 3905402710; 606105819; 3250441966; 4118548399; 1200080426;
    2821735955; 4249261313; 1770035416; 2336552879; 4294925233; 2304563134;
    1804603682; 4254626195; 2792965006; 1236535329; 4129170786; 3225465664;
    643717713; 3921069994; 3593408605; 38016083; 3634488961; 3889429448;
    568446438; 3275163606; 4107603335; 1163531501; 2850285829; 4243563512;
    1735328473; 2368359562; 4294588738; 2272392833; 1839030562; 4259657740;
    2763975236; 1272893353; 4139469664; 3200236656; 681279174; 3936430074;
    3572445317; 76029189; 3654602809; 3873151461; 530742520; 3299628645;
    4096336452; 1126891415; 2878612391; 4237533241; 1700485571; 2399980690;
    4293915773; 2240044497; 1873313359; 4264355552; 2734768916; 1309151649;
    4149444226; 3174756917; 718787259; 3951481745 ].

Definition S : list Z :=
  [ 7; 12; 17; 22; 7; 12; 17; 22; 7; 12; 17; 22; 7; 12; 17; 22;
    5; 9; 14; 20; 5; 9; 14; 20; 5; 9; 14; 20; 5; 9; 14; 20;
    4; 11; 16; 23; 4; 11; 16; 23; 4; 11; 16; 23; 4; 11; 16; 23;
    6; 10; 15; 21; 6; 10; 15; 21; 6; 10; 15; 21; 6; 10; 15; 21 ].

Definition word_le (bs : list Z) : Z :=
  foldr (fun b acc => b + 256 * acc) 0 bs.

Fixpoint bytes_le (n : nat) (x : Z) : list Z :=
  match n with
  | O => []
  | Datatypes.S n' => Z.land x 255 :: bytes_le n' (Z.shiftr x 8)
  end.

(** The message followed by 0x80, zeros up to 56 mod 64, and the bit length
    on eight little-endian bytes. *)
Definition pad (msg : list Z) : list Z :=
  let len := Z.of_nat (length msg) in
  let zeros := Z.to_nat ((55 - len) mod 64) in
  msg ++ 128 :: replicate zeros 0 ++ bytes_le 8 (Z.land (8 * len) 18446744073709551615).

Fixpoint chunks {A} (fuel n : nat) (l : list A) : list (list A) :=
  match fuel with
  | O => []
  | Datatypes.S fuel' =>
      match l with
      | [] => []
      | _ => take n l :: chunks fuel' n (drop n l)
      end
  end.

Record regs := Regs { rA : Z; rB : Z; rC : Z; rD : Z }.

Definition round (M : list Z) (r : regs) (i : nat) : regs :=
  let '(Regs a b c d) := r in
  let iz := Z.of_nat i in
  let '(f, g) :=
    if iz <? 16 then (Z.lor (Z.land b c) (Z.land (mask32 (Z.lnot b)) d), iz)
    else if iz <? 32 then
      (Z.lor (Z.land d b) (Z.land (mask32 (Z.lnot d)) c), (5 * iz + 1) mod 16)
    else if iz <? 48 then (Z.lxor b (Z.lxor c d), (3 * iz + 5) mod 16)
    else (Z.lxor c (Z.lor b (mask32 (Z.lnot d))), (7 * iz) mod 16) in
  let f' := mask32 (f + a + nth i K 0 + nth (Z.to_nat g) M 0) in
  Regs d (mask32 (b + rotl32 f' (nth i S 0))) b c.

Definition block (r : regs) (blk : list Z) : regs :=
  let M := map word_le (chunks 16 4 blk) in
  let '(Regs a b c d) := foldl (round M) r (seq 0 64) in
  Regs (mask32 (rA r + a)) (mask32 (rB r + b))
       (mask32 (rC r + c)) (mask32 (rD r + d)).

Definition digest (msg : list Z) : list Z :=
  let p := pad msg in
  let '(Regs a b c d) :=
    foldl block (Regs 1732584193 4023233417 2562383102 271733878)
          (chunks (length p) 64 p) in
  bytes_le 4 a ++ bytes_le 4 b ++ bytes_le 4 c ++ bytes_le 4 d.

Definition hex_digit (n : Z) : ascii :=
  nth (Z.to_nat n)
      (list_ascii_of_string "0123456789abcdef") "0"%char.

Fixpoint hex (bs : list Z) : string :=
  match bs with
  | [] => EmptyString
  | b :: bs' => String (hex_digit (Z.shiftr b 4))
                  (String (hex_digit (Z.land b 15)) (hex bs'))
  end.

Definition hexdigest (msg : list Z) : string := hex (digest msg).

End MD5.


(** ** JSON values and Python dictionaries *)

(** A parsed JSON document.  Numbers are integers; an object is a Python
    [dict], kept as its items in insertion order. *)
#[local] Unset Elimination Schemes.
Inductive json :=
| JNull
| JBool (b : bool)
| JNum (n : Z)
| JStr (s : string)
| JList (l : list json)
| JObj (kvs : list (string * json)).
#[local] Set Elimination Schemes.

Definition dict := list (string * json).

(** [d.get(k)] as an option; [d[k]] raises [KeyError] where this is [None]. *)
Fixpoint dict_lookup (k : string) (d : dict) : option json :=
  match d with
  | [] => None
  | (k', v) :: d' => if String.eqb k' k then Some v else dict_lookup k d'
  end.

(** [d.get(k, default)] *)
Definition dict_get (k : string) (default : json) (d : dict) : json :=
  match dict_lookup k d with
  | Some v => v
  | None => default
  end.

(** [{**d, k: v}]: the value is replaced in place when the key is there,
    the item is appended otherwise. *)
Fixpoint dict_set (k : string) (v : json) (d : dict) : dict :=
  match d with
  | [] => [(k, v)]
  | (k', v') :: d' =>
      if String.eqb k' k then (k', v) :: d' else (k', v') :: dict_set k v d'
  end.

(** Truth value of a Python object, as [if not text] tests it. *)
Definition truthy (j : json) : bool :=
  match j with
  | JNull => false
  | JBool b => b
  | JNum n => negb (n =? 0)%Z
  | JStr s => negb (String.eqb s "")
  | JList l => match l with [] => false | _ => true end
  | JObj kvs => match kvs with [] => false | _ => true end
  end.

Module PyRepr.

Definition dquote : ascii := ascii_of_nat 34.
Definition squote : ascii := ascii_of_nat 39.
Definition backslash : ascii := ascii_of_nat 92.

Fixpoint mem_char (c : ascii) (s : string) : bool :=
  match s with
  | EmptyString => false
  | String c' s' => Ascii.eqb c c' || mem_char c s'
  end.

Definition hex2 (n : nat) : string :=
  String (MD5.hex_digit (Z.of_nat (n / 16)))
    (String (MD5.hex_digit (Z.of_nat (n mod 16))) EmptyString).

Definition escape (quote : ascii) (c : ascii) : string :=
  let n := nat_of_ascii c in
  if Ascii.eqb c quote || Ascii.eqb c backslash
  then String backslash (String c EmptyString)
  else if (n =? 9)%nat then String backslash "t"
  else if (n =? 10)%nat then String backslash "n"
  else if (n =? 13)%nat then String backslash "r"
  else if ((n <? 32) || ((127 <=? n) && (n <=? 160)) || (n =? 173))%nat
  then String backslash ("x" ++ hex2 n)
  else String c EmptyString.

Fixpoint escape_all (quote : ascii) (s : string) : string :=
  match s with
  | EmptyString => EmptyString
  | String c s' => escape quote c ++ escape_all quote s'
  end.

(** [repr(s)] of a string. *)
Definition repr_str (s : string) : string :=
  let quote :=
    if mem_char squote s && negb (mem_char dquote s) then dquote else squote in
  String quote (escape_all quote s ++ String quote EmptyString).

(** [repr(j)] *)
Fixpoint repr (j : json) : string :=
  match j with
  | JNull => "None"
  | JBool true => "True"
  | JBool false => "False"
  | JNum n => NilZero.string_of_int (Z.to_int n)
  | JStr s => repr_str s
  | JList l => "[" ++ PyStr.join ", " (map repr l) ++ "]"
  | JObj kvs =>
      "{" ++ PyStr.join ", "
               (map (fun kv => repr_str (fst kv) ++ ": " ++ repr (snd kv)) kvs)
          ++ "}"
  end.

(** [str(j)], which is what an f-string field [{j}] renders. *)
Definition str (j : json) : string :=
  match j with
  | JStr s => s
  | _ => repr j
  end.

End PyRepr.

(** ** The taxonomy and the label extractor *)

Definition CATEGORIES : list string :=
  [ "Funding"; "Data"; "Governance"; "Workforce"; "Comms and engagement";
    "Other" ].

(** The first loop of [extract_categories]: the comma-separated pass. *)
Definition exact_pass (response : string) : gset string :=
  foldl (fun (detected : gset string) (item : string) =>
           let item := PyStr.strip item in
           if bool_decide (item ∈ CATEGORIES) then detected ∪ {[ item ]}
           else detected)
        ∅ (PyStr.split "," response).

(** The second loop: the search for category names in the text. *)
Definition substring_pass (response : string) : gset string :=
  foldl (fun (detected : gset string) (category : string) =>
           if PyStr.contains (PyStr.lower category) (PyStr.lower response)
           then detected ∪ {[ category ]}
           else detected)
        ∅ CATEGORIES.

Definition extract_categories (response : string) : gset string :=
  let detected := exact_pass response in
  let detected :=
    if bool_decide (detected = ∅) then substring_pass response else detected in
  let detected :=
    if bool_decide (detected = ∅) then detected ∪ {[ "Other" ]} else detected in
  detected.

(** ** Exceptions, effects and the world *)

Inductive exn :=
| JSONDecodeError
| KeyError
| TypeError
| AttributeError
| ValueError
| UnicodeDecodeError.

Inductive outcome (A : Type) :=
| Returned (a : A)
| Raised (e : exn).
Arguments Returned {A} a.
Arguments Raised {A} e.

(** What a file holds: a JSON document, given by the value [json.load]
    parses it to; text that [json.load] rejects; or bytes that are no text
    at all, on which the read raises [UnicodeDecodeError]. *)
Inductive file_content :=
| NotJson
| Doc (j : json)
| Undecodable.

(** The directories that exist and the regular files with their contents.
    Failures of the operating system (permissions, full disk) are not
    modelled. *)
Record world := World {
  dirs : gset string;
  files : gmap string file_content
}.

Inductive event :=
| EvMkdir (dir : string)
| EvExists (path : string)
| EvRead (path : string)
| EvWrite (path : string) (content : json)
| EvPost (url model prompt : string)
| EvPrint (msg : string).

(** What comes back from [client.post]: an exception of the transport
    (connection refused, timeout, ...) or a response with its status code and
    its body, [None] when the body is not JSON. *)
Inductive http_reply :=
| TransportError
| Response (status : Z) (body : option json).

(** ** The inference client *)

Definition nl : string := String (ascii_of_nat 10) EmptyString.

Definition prompt_of (text : json) : string :=
  "You have a list of categories that you want to assign to some text. " ++ nl
  ++ "    Here is the list: " ++ PyStr.join ", " CATEGORIES
  ++ ". You must assign one or more of those categories in the list, to the following text. Each text can be labelled with more than one category, as long as it is considered relevant. " ++ nl
  ++ nl
  ++ "Text to categorize: " ++ PyRepr.str text ++ nl
  ++ nl
  ++ "First, think about which categories apply. Then, provide your answer as a comma-separated list " ++ nl
  ++ "of categories that apply to this text. Only include categories from the provided list." ++ nl
  ++ nl
  ++ "Categories:".

(** [response.raise_for_status()] raises unless the status is 2xx. *)
Definition is_success (status : Z) : bool :=
  ((200 <=? status) && (status <=? 299))%Z.

(** The request of [get_ollama_response]; the payload's [stream] and
    [options] are constants and left out of the event. *)
Definition ollama_request (text : json) (model : string) : event :=
  EvPost "http://localhost:11434/api/generate" model (prompt_of text).

(** The [try] block of [get_ollama_response] once the reply is there. *)
Definition ollama_result (reply : http_reply) : outcome string * list event :=
  match reply with
  | TransportError => (Returned "", [EvPrint "Error calling Ollama API"])
  | Response status body =>
      if negb (is_success status)
      then (Returned "", [EvPrint "Error calling Ollama API"])
      else match body with
           | None => (Raised JSONDecodeError, [])
           | Some (JObj result) =>
               match dict_get "response" (JStr "") result with
               | JStr s => (Returned (PyStr.strip s), [])
               | _ => (Raised AttributeError, [])
               end
           | Some _ => (Raised AttributeError, [])
           end
  end.

Definition get_ollama_response (text : json) (model : string)
    (reply : http_reply) : outcome string * list event :=
  let '(r, tr) := ollama_result reply in
  (r, ollama_request text model :: tr).

(** ** The response cache, as [process_item] has it inline *)

(** [cache_dir / f"{text_hash}.json"] *)
Definition cache_path (cache_dir : string) (text : json) (model : string)
    : string :=
  let text_hash :=
    MD5.hexdigest (PyStr.encode (PyRepr.str text ++ ":" ++ model)) in
  cache_dir ++ "/" ++ text_hash ++ ".json".

(** [cache_dir.mkdir(parents=True, exist_ok=True)] *)
Definition mkdir (d : string) (w : world) : world :=
  World (dirs w ∪ {[ d ]}) (files w).

Inductive lookup_result :=
| Hit (categories : json)
| Miss
| Fault (e : exn).

(** Lines 143-149: the read of a cache file. *)
Definition cache_read (w : world) (cache_file : string)
    : lookup_result * list event :=
  match files w !! cache_file with
  | None => (Miss, [EvExists cache_file])
  | Some content =>
      let tr := [EvExists cache_file; EvRead cache_file] in
      match content with
      | NotJson => (Miss, tr)
      | Doc (JObj cached) =>
          match dict_lookup "categories" cached with
          | Some v => (Hit v, tr)
          | None => (Miss, tr)
          end
      | Doc _ => (Fault TypeError, tr)
      | Undecodable => (Fault UnicodeDecodeError, tr)
      end
  end.

(** Lines 159-161: the write of a cache file. *)
Definition cache_entry (text : json) (categories : list string) : json :=
  JObj [("text", text); ("categories", JList (map JStr categories))].

Definition cache_write (w : world) (cache_file : string) (text : json)
    (categories : list string) : world * list event :=
  let entry := cache_entry text categories in
  (World (dirs w) (<[cache_file := Doc entry]> (files w)),
   [EvWrite cache_file entry]).

(** ** The item processor *)

(** Where a call of [process_item] stands when it first gives up control:
    finished, or suspended in [await get_ollama_response(text, model)]. *)
Inductive step :=
| Done (o : outcome dict)
| Await (text : json) (cache_file : option string).

(** [process_item] up to the [await]. *)
Definition process_item_begin (item : dict) (model : string)
    (cache_dir : option string) (w : world) : step * world * list event :=
  let text := dict_get "description" (JStr "") item in
  if negb (truthy text)
  then (Done (Returned (dict_set "categories" (JList [JStr "Other"]) item)),
        w, [])
  else
    match cache_dir with
    | None => (Await text None, w, [ollama_request text model])
    | Some d =>
        let w := mkdir d w in
        let cache_file := cache_path d text model in
        let '(r, tr) := cache_read w cache_file in
        match r with
        | Hit v =>
            (Done (Returned (dict_set "categories" v item)), w, EvMkdir d :: tr)
        | Fault e => (Done (Raised e), w, EvMkdir d :: tr)
        | Miss =>
            (Await text (Some cache_file), w,
             (EvMkdir d :: tr ++ [ollama_request text model])%list)
        end
    end.

(** [process_item] from the reply of the inference service on. *)
Definition process_item_resume (item : dict) (text : json)
    (cache_file : option string) (reply : http_reply) (w : world)
    : outcome dict * world * list event :=
  let '(r, tr) := ollama_result reply in
  match r with
  | Raised e => (Raised e, w, tr)
  | Returned response =>
      let categories := elements (extract_categories response) in
      let result := dict_set "categories" (JList (map JStr categories)) item in
      match cache_file with
      | Some f =>
          let '(w, tr') := cache_write w f text categories in
          (Returned result, w, (tr ++ tr')%list)
      | None => (Returned result, w, tr)
      end
  end.

(** [await process_item(item, model, cache_dir)] on its own; [reply] is what
    the inference service answers if it is asked. *)
Definition process_item (item : dict) (model : string)
    (cache_dir : option string) (reply : http_reply) (w : world)
    : outcome dict * world * list event :=
  match process_item_begin item model cache_dir w with
  | (Done o, w, tr) => (o, w, tr)
  | (Await text cache_file, w, tr) =>
      let '(o, w, tr') := process_item_resume item text cache_file reply w in
      (o, w, (tr ++ tr')%list)
  end.

(** ** The batch scheduler *)

(** [range(0, stop, step)] *)
Definition py_range (stop : nat) (step : Z) : outcome (list nat) :=
  if (step =? 0)%Z then Raised ValueError
  else if (step <? 0)%Z then Returned []
  else
    let n := Z.to_nat step in
    Returned (map (fun k => k * n) (seq 0 ((stop + n - 1) / n))).

(** The tasks of one [asyncio.gather], by position: the item and where its
    call of [process_item] stands. *)
Abbreviation slots := (list (dict * step)).

(** Every task runs up to its first suspension, in the order of creation. *)
Fixpoint begin_all (batch : list dict) (model : string)
    (cache_dir : option string) (w : world) : slots * world * list event :=
  match batch with
  | [] => ([], w, [])
  | item :: rest =>
      let '(s, w, tr) := process_item_begin item model cache_dir w in
      let '(ss, w, tr') := begin_all rest model cache_dir w in
      ((item, s) :: ss, w, (tr ++ tr')%list)
  end.

Fixpoint pending_from (p : nat) (ss : slots) : list nat :=
  match ss with
  | [] => []
  | (_, Await _ _) :: ss' => p :: pending_from (S p) ss'
  | (_, Done _) :: ss' => pending_from (S p) ss'
  end.

Fixpoint first_raised (ss : slots) : option exn :=
  match ss with
  | [] => None
  | (_, Done (Raised e)) :: _ => Some e
  | _ :: ss' => first_raised ss'
  end.

(** The suspended tasks are woken as their replies arrive: by increasing
    latency, and by position among equal latencies. *)
Fixpoint insert_by (key : nat -> nat) (p : nat) (l : list nat) : list nat :=
  match l with
  | [] => [p]
  | q :: l' => if (key p <=? key q)%nat then p :: l else q :: insert_by key p l'
  end.

Definition completion_order (latency : nat -> nat) (pending : list nat)
    : list nat :=
  foldr (insert_by latency) [] pending.

(** The suspended tasks finish in the given order; the first exception ends
    the [gather]. *)
Fixpoint resume_all (order : list nat) (reply : nat -> http_reply)
    (ss : slots) (w : world) : option exn * slots * world * list event :=
  match order with
  | [] => (None, ss, w, [])
  | p :: rest =>
      match ss !! p with
      | Some (item, Await text cache_file) =>
          let '(o, w, tr) :=
            process_item_resume item text cache_file (reply p) w in
          let ss := <[p := (item, Done o)]> ss in
          match o with
          | Raised e => (Some e, ss, w, tr)
          | Returned _ =>
              let '(failure, ss, w, tr') := resume_all rest reply ss w in
              (failure, ss, w, (tr ++ tr')%list)
          end
      | _ => resume_all rest reply ss w
      end
  end.

Definition slot_result (s : dict * step) : option dict :=
  match s with
  | (_, Done (Returned r)) => Some r
  | _ => None
  end.

Inductive gathered :=
| Results (rs : list dict)
| Failure (e : exn)
| Unfinished.

(** [await asyncio.gather] over the tasks for the window that starts at item [i]:
    the results are read off the tasks by position, whatever the order in
    which they finished. *)
Definition gather (i : nat) (batch : list dict) (model : string)
    (cache_dir : option string) (reply : nat -> http_reply)
    (latency : nat -> nat) (w : world) : gathered * world * list event :=
  let '(ss, w, tr) := begin_all batch model cache_dir w in
  match first_raised ss with
  | Some e => (Failure e, w, tr)
  | None =>
      let order :=
        completion_order (fun p => latency (i + p)) (pending_from 0 ss) in
      let '(failure, ss, w, tr') :=
        resume_all order (fun p => reply (i + p)) ss w in
      match failure with
      | Some e => (Failure e, w, (tr ++ tr')%list)
      | None =>
          match mapM slot_result ss with
          | Some rs => (Results rs, w, (tr ++ tr')%list)
          | None => (Unfinished, w, (tr ++ tr')%list)
          end
      end
  end.

(** How the generator ended: exhausted, ended by an exception, or left
    waiting on a [gather] that never finishes. *)
Inductive status :=
| Completed
| Failed (e : exn)
| Stalled.

(** The body of the [for] loop over the window starts; the records are
    yielded window by window. *)
Fixpoint run_windows (starts : list nat) (items : list dict) (n : nat)
    (model : string) (cache_dir : option string) (reply : nat -> http_reply)
    (latency : nat -> nat) (w : world)
    : list dict * status * world * list event :=
  match starts with
  | [] => ([], Completed, w, [])
  | i :: rest =>
      let batch := take n (drop i items) in
      let '(g, w, tr) := gather i batch model cache_dir reply latency w in
      match g with
      | Results results =>
          let '(out, st, w, tr') :=
            run_windows rest items n model cache_dir reply latency w in
          ((results ++ out)%list, st, w, (tr ++ tr')%list)
      | Failure e => ([], Failed e, w, tr)
      | Unfinished => ([], Stalled, w, tr)
      end
  end.

(** [process_batch], consumed to its end: the records it yields, in the order
    it yields them.  [reply k] is the answer to the request for item [k], if
    one is made, and [latency k] the time that answer takes. *)
Definition process_batch (items : list dict) (batch_size : Z)
    (model : string) (cache_dir : option string) (reply : nat -> http_reply)
    (latency : nat -> nat) (w : world)
    : list dict * status * world * list event :=
  match py_range (length items) batch_size with
  | Raised e => ([], Failed e, w, [])
  | Returned starts =>
      run_windows starts items (Z.to_nat batch_size) model cache_dir reply
        latency w
  end.

(** ** Notions of the specification *)

(** A letter or a digit: what makes a label's text part of a longer word. *)
Definition is_word_char (c : ascii) : bool :=
  let n := nat_of_ascii c in
  (((48 <=? n) && (n <=? 57)) || ((65 <=? n) && (n <=? 90))
   || ((97 <=? n) && (n <=? 122)))%nat.

Fixpoint occurs_as_word (after_word_char : bool) (needle hay : string) : bool :=
  (negb after_word_char && String.prefix needle hay
   && match String.get (String.length needle) hay with
      | Some c => negb (is_word_char c)
      | None => true
      end)
  || match hay with
     | EmptyString => false
     | String c hay' => occurs_as_word (is_word_char c) needle hay'
     end.

(** The label's text occurs in the response, in any case, as a word or a
    phrase of its own and not inside a longer word. *)
Definition embedded_as_word (category response : string) : bool :=
  occurs_as_word false (PyStr.lower category) (PyStr.lower response).

(** Nothing but whitespace. *)
Fixpoint blank (s : string) : bool :=
  match s with
  | EmptyString => true
  | String c s' => PyStr.isspace c && blank s'
  end.

(** One segment of a comma-separated answer: a label with whitespace around
    it. *)
Record segment := Segment { lead : string; label : string; trail : string }.

Definition segment_text (g : segment) : string :=
  lead g ++ label g ++ trail g.

Definition valid_segment (g : segment) : Prop :=
  blank (lead g) = true /\ label g ∈ CATEGORIES /\ blank (trail g) = true.

Definition comma_list (segs : list segment) : string :=
  PyStr.join "," (map segment_text segs).

(** What the proof needs of a label: no comma, and no whitespace at either
    end. *)
Definition trimmed (c : string) : bool :=
  negb (PyRepr.mem_char "," c)
  && match c with
     | EmptyString => false
     | String x _ => negb (PyStr.isspace x)
     end
  && String.eqb (PyStr.rstrip c) c.

(** A transport or HTTP-status failure of the inference request. *)
Definition request_failed (reply : http_reply) : Prop :=
  match reply with
  | TransportError => True
  | Response status _ => (status < 200 \/ 299 < status)%Z
  end.

(** A reply the service's contract allows: a failure, or a 2xx response
    whose body is a JSON object with [response], when present, a string. *)
Definition reply_in_contract (reply : http_reply) : Prop :=
  match reply with
  | TransportError => True
  | Response status body =>
      is_success status = true ->
      exists result s,
        body = Some (JObj result)
        /\ dict_get "response" (JStr "") result = JStr s
  end.

(** The cache contract of the specification, read off [process_item]:
    [get] is the lookup of lines 138-149, [put] the write of lines
    159-161. *)
Definition cache_get (w : world) (cache_dir : string) (text : json)
    (model : string) : lookup_result :=
  fst (cache_read (mkdir cache_dir w) (cache_path cache_dir text model)).

Definition cache_put (w : world) (cache_dir : string) (text : json)
    (model : string) (labels : gset string) : world :=
  fst (cache_write (mkdir cache_dir w) (cache_path cache_dir text model) text
         (elements labels)).

(** A non-empty list of labels of the taxonomy, as a JSON value. *)
Definition taxonomy_labels (v : json) : Prop :=
  exists l, v = JList (map JStr l) /\ l <> [] /\ Forall (fun c => c ∈ CATEGORIES) l.

(** A cache file that [process_item] reads without harm: text that is not
    JSON, or a JSON object whose [categories], when present, are labels of
    the taxonomy. *)
Definition sound_entry (content : file_content) : Prop :=
  match content with
  | NotJson => True
  | Doc (JObj cached) =>
      match dict_lookup "categories" cached with
      | Some v => taxonomy_labels v
      | None => True
      end
  | Doc _ => False
  | Undecodable => False
  end.



Definition sound_cache (w : world) : Prop :=
  forall path content, files w !! path = Some content -> sound_entry content.

(** The number of inference requests in a trace. *)
Definition is_post (ev : event) : bool :=
  match ev with
  | EvPost _ _ _ => true
  | _ => false
  end.

Fixpoint posts (tr : list event) : nat :=
  match tr with
  | [] => 0
  | ev :: tr' => (if is_post ev then 1 else 0) + posts tr'
  end.

(** The text of a record, as [process_item] takes it. *)
Definition text_of (item : dict) : json := dict_get "description" (JStr "") item.

(** Successive calls of [process_item], each awaited before the next. *)
Fixpoint process_each (runs : list (dict * http_reply)) (model : string)
    (cache_dir : option string) (w : world)
    : list (outcome dict) * world * list event :=
  match runs with
  | [] => ([], w, [])
  | (item, reply) :: rest =>
      let '(o, w, tr) := process_item item model cache_dir reply w in
      let '(os, w, tr') := process_each rest model cache_dir w in
      (o :: os, w, (tr ++ tr')%list)
  end.

(** [r] is [item] with its [categories] set: the annotated record of
    [item]. *)
Definition annotates (item r : dict) : Prop :=
  exists v, r = dict_set "categories" v item.




(** The records a run of [process_batch] yielded, and how it ended. *)
Definition yielded (run : list dict * status * world * list event) : list dict :=
  fst (fst (fst run)).

Definition ending (run : list dict * status * world * list event) : status :=
  snd (fst (fst run)).

(** The order of the replies: by latency. *)
Definition by_key (key : nat -> nat) (a b : nat) : Prop := key a <= key b.

(** The place of a task in a given order of completion: latencies that
    make the tasks finish in that order. *)
Fixpoint rank (order : list nat) (p : nat) : nat :=
  match order with
  | [] => 0
  | q :: order' => if (p =? q)%nat then 0 else S (rank order' p)
  end.

(** ** The end-to-end example of the specification *)

Definition example_items : list dict :=
  [ [("id", JStr "1"); ("description", JStr "We need more funding")];
    [("id", JStr "2"); ("description", JStr "no relevant info")] ].

Definition example_reply (k : nat) : http_reply :=
  match k with
  | 0 => Response 200 (Some (JObj [("response", JStr "Funding")]))
  | _ => Response 200 (Some (JObj [("response", JStr "")]))
  end.


(** The cache files written in a trace, in the order of the writes. *)
Fixpoint written (tr : list event) : list string :=
  match tr with
  | [] => []
  | EvWrite path _ :: tr' => path :: written tr'
  | _ :: tr' => written tr'
  end.

(** ** Notions for the further properties *)

(** The world and the trace at the end of a run of [process_batch]. *)
Definition world_after (run : list dict * status * world * list event) : world :=
  snd (fst run).

Definition effects (run : list dict * status * world * list event)
    : list event :=
  snd run.

(** An access to the file system. *)
Definition touches_files (ev : event) : bool :=
  match ev with
  | EvMkdir _ | EvExists _ | EvRead _ | EvWrite _ _ => true
  | EvPost _ _ _ | EvPrint _ => false
  end.

(** What holds of the suspended calls of a [gather]. *)
Definition slot_holds (J : dict -> json -> option string -> Prop)
    (s : dict * step) : Prop :=
  match snd s with
  | Await text cache_file => J (fst s) text cache_file
  | Done _ => True
  end.

(** The record has a text to categorise. *)
Definition has_text (item : dict) : bool := truthy (text_of item).

(** The number of records that have a text to categorise. *)
Definition with_text (items : list dict) : nat :=
  length (filter (fun item => has_text item = true) items).

(** ** The summary of [categorize_file] *)

(** [for category in v]: the values a Python object yields when iterated. *)
Definition py_iter (v : json) : outcome (list json) :=
  match v with
  | JList l => Returned l
  | JStr s => Returned (map (fun c => JStr (String c EmptyString))
                          (list_ascii_of_string s))
  | JObj kvs => Returned (map (fun kv => JStr (fst kv)) kvs)
  | JNull | JBool _ | JNum _ => Raised TypeError
  end.

(** A value that can be the key of a [dict]. *)
Definition hashable (v : json) : bool :=
  match v with
  | JList _ | JObj _ => false
  | _ => true
  end.

Definition num_of (v : json) : option Z :=
  match v with
  | JNum n => Some n
  | JBool b => Some (if b then 1 else 0)%Z
  | _ => None
  end.

(** Equality of two keys of a [dict]: [True] is the key [1]. *)
Definition key_eqb (a b : json) : bool :=
  match a, b with
  | JStr s, JStr t => String.eqb s t
  | JNull, JNull => true
  | _, _ =>
      match num_of a, num_of b with
      | Some x, Some y => (x =? y)%Z
      | _, _ => false
      end
  end.

Definition counts := list (json * Z).

(** [category_counts.get(category, 0)] *)
Fixpoint count_of (category : json) (cs : counts) : Z :=
  match cs with
  | [] => 0
  | (k, n) :: cs' => if key_eqb k category then n else count_of category cs'
  end.

(** [category_counts[category] = category_counts.get(category, 0) + 1] *)
Fixpoint counts_incr (category : json) (cs : counts) : counts :=
  match cs with
  | [] => [(category, 1%Z)]
  | (k, n) :: cs' =>
      if key_eqb k category then (k, (n + 1)%Z) :: cs'
      else (k, n) :: counts_incr category cs'
  end.

(** The inner loop of lines 240-241, over the categories of one record. *)
Fixpoint count_each (categories : list json) (cs : counts) : outcome counts :=
  match categories with
  | [] => Returned cs
  | category :: rest =>
      if hashable category then count_each rest (counts_incr category cs)
      else Raised TypeError
  end.

(** The outer loop of lines 239-241, over the records. *)
Fixpoint count_items (results : list dict) (cs : counts) : outcome counts :=
  match results with
  | [] => Returned cs
  | item :: rest =>
      match py_iter (dict_get "categories" (JList []) item) with
      | Raised e => Raised e
      | Returned categories =>
          match count_each categories cs with
          | Raised e => Raised e
          | Returned cs' => count_items rest cs'
          end
      end
  end.

Definition category_counts (results : list dict) : outcome counts :=
  count_items results [].

(** The dictionary that [categorize_file] returns. *)
Record output := Output {
  categorized_items : list dict;
  total_items : Z;
  summary_counts : counts
}.

Inductive categorized :=
| Finished (o : output)
| Aborted (e : exn)
| Waiting.

(** [~/.cache/text_categorizer], expanded for the home directory. *)
Definition default_cache_dir (home : string) : string :=
  home ++ "/.cache/text_categorizer".

(** Lines 224-246 of [categorize_file]: from the items of the input file to
    the dictionary that is returned.  The progress lines on the console are
    not recorded; the read of the input file and the write of the output
    file are outside. *)
Definition categorize_items (items : list dict) (model : string)
    (batch_size : Z) (use_cache : bool) (home : string)
    (reply : nat -> http_reply) (latency : nat -> nat) (w : world)
    : categorized * world * list event :=
  let cache_dir := if use_cache then Some (default_cache_dir home) else None in
  let '(results, st, w, tr) :=
    process_batch items batch_size model cache_dir reply latency w in
  match st with
  | Completed =>
      match category_counts results with
      | Returned cs =>
          (Finished (Output results (Z.of_nat (length results)) cs), w, tr)
      | Raised e => (Aborted e, w, tr)
      end
  | Failed e => (Aborted e, w, tr)
  | Stalled => (Waiting, w, tr)
  end.

(** The labels of a list of records, each a list of strings, one after the
    other. *)
Definition string_categories (r : dict) (ls : list string) : Prop :=
  dict_get "categories" (JList []) r = JList (map JStr ls).

(** The sum of the counts. *)
Definition counts_total (cs : counts) : Z :=
  foldr (fun kn acc => (snd kn + acc)%Z) 0%Z cs.

(** The number of times a label occurs in a list. *)
Fixpoint occurrences (c : string) (ls : list string) : Z :=
  match ls with
  | [] => 0
  | l :: ls' => ((if String.eqb l c then 1 else 0) + occurrences c ls')%Z
  end.




(** * [excel_converter.py] *)

(** ** The regular expressions of the column headers *)

(** [\d], for code points below 256. *)
Definition is_digit (c : ascii) : bool :=
  let n := nat_of_ascii c in ((48 <=? n) && (n <=? 57))%nat.

(** The class [[\s\-\.:]]. *)
Definition is_sep (c : ascii) : bool :=
  PyStr.isspace c || Ascii.eqb c "-" || Ascii.eqb c "." || Ascii.eqb c ":".

(** The longest prefix of characters of a class, and what follows it: what
    a greedy [c+] or [c*] takes when nothing that follows can take its
    characters back. *)
Fixpoint span (p : ascii -> bool) (s : string) : string * string :=
  match s with
  | EmptyString => (EmptyString, EmptyString)
  | String c s' =>
      if p c then let '(a, b) := span p s' in (String c a, b)
      else (EmptyString, s)
  end.

(** A match of [^Q\d+[\s\-\.:]+] (with [q]) or [^\d+[\s\-\.:]+] (without)
    at the start of [s]: the digits of the group and what follows the
    match.  The class of the digits and the class of the separators have no
    character in common, so the greedy match is the only one. *)
Definition match_number (q : bool) (s : string) : option (string * string) :=
  let after_q :=
    if q then
      match s with
      | String c s' => if Ascii.eqb c "Q" then Some s' else None
      | EmptyString => None
      end
    else Some s in
  match after_q with
  | None => None
  | Some s1 =>
      let '(digits, r) := span is_digit s1 in
      if String.eqb digits "" then None
      else
        let '(seps, rest) := span is_sep r in
        if String.eqb seps "" then None else Some (digits, rest)
  end.

(** [re.sub(pattern, "", s)] for the two patterns of
    [extract_question_text], which end in [\s*]: anchored at the start, a
    pattern is removed once at most. *)
Definition sub_number (q : bool) (s : string) : string :=
  match match_number q s with
  | Some (_, rest) => PyStr.lstrip rest
  | None => s
  end.

(** [int(digits)], for a run of at most 4300 digits: the value of the
    number.  On a longer run [int] raises [ValueError], which is not
    modelled. *)
Definition int_of_digits (digits : string) : Z :=
  foldl (fun acc c => (10 * acc + (Z.of_nat (nat_of_ascii c) - 48))%Z) 0%Z
        (list_ascii_of_string digits).

Definition extract_question_text (column_name : string) : string :=
  PyStr.strip (sub_number false (sub_number true column_name)).

Definition extract_question_number (column_name : string) : option Z :=
  match match_number true column_name with
  | Some (digits, _) => Some (int_of_digits digits)
  | None =>
      match match_number false column_name with
      | Some (digits, _) => Some (int_of_digits digits)
      | None => None
      end
  end.

(** ** The cells *)

(** The value of a cell: missing ([None], [NaN]), a string, an integer or a
    boolean.  Floating-point numbers and dates are not modelled. *)
Inductive cell :=
| CellNA
| CellStr (s : string)
| CellInt (n : Z)
| CellBool (b : bool).

(** [str(text)] *)
Definition cell_str (v : cell) : string :=
  match v with
  | CellNA => "None"
  | CellStr s => s
  | CellInt n => NilZero.string_of_int (Z.to_int n)
  | CellBool true => "True"
  | CellBool false => "False"
  end.

Definition non_responses : list string :=
  [ "n/a"; "na"; "not applicable"; "none"; "" ].

Definition clean_response (text : cell) : option string :=
  match text with
  | CellNA => None
  | _ =>
      let str_text := PyStr.strip (cell_str text) in
      if bool_decide (PyStr.lower str_text ∈ non_responses) then None
      else Some str_text
  end.

(** ** The sheets *)

(** A data frame whose column labels are distinct strings: the columns in
    order, each with its label and its cells from the first row down. *)
Definition frame := list (string * list cell).

Record response := Response_ { resp_id : string; resp_text : string }.

Record column_data := ColumnData {
  question : string;
  responses : list response;
  question_id : string
}.

(** The loop over [enumerate(df[column])], from row [idx] on. *)
Fixpoint gather_responses (idx : nat) (values : list cell) : list response :=
  match values with
  | [] => []
  | value :: rest =>
      match clean_response value with
      | Some cleaned =>
          Response_ (NilZero.string_of_int (Z.to_int (Z.of_nat idx))) cleaned
            :: gather_responses (S idx) rest
      | None => gather_responses (S idx) rest
      end
  end.

(** The loop over [df.columns], from the column at position [pos] on. *)
Fixpoint convert_columns (pos : nat) (df : frame) : list column_data :=
  match df with
  | [] => []
  | (column, values) :: rest =>
      let q := extract_question_text column in
      let question_num := extract_question_number column in
      let rs := gather_responses 0 values in
      match rs with
      | [] => convert_columns (S pos) rest
      | _ =>
          let number :=
            match question_num with
            | Some n => n
            | None => (Z.of_nat pos + 1)%Z
            end in
          ColumnData q rs
            ("question" ++ NilZero.string_of_int (Z.to_int number))
            :: convert_columns (S pos) rest
      end
  end.

(** The list under the key [columns] of what [convert_sheet_to_json]
    returns. *)
Definition convert_sheet_to_json (df : frame) : list column_data :=
  convert_columns 0 df.

(** ** [integration.py]: from a column to the items of the categorizer *)

(** Lines 58-63 of [process_excel_and_categorize]. *)
Definition items_to_categorize (rs : list response) : list dict :=
  map (fun r => [("id", JStr (resp_id r)); ("description", JStr (resp_text r))])
      rs.

(** ** The names of the output files *)

(** [\w], for code points below 256. *)
Definition is_word (c : ascii) : bool :=
  let n := nat_of_ascii c in
  (((48 <=? n) && (n <=? 57)) || ((65 <=? n) && (n <=? 90)) || (n =? 95)
   || ((97 <=? n) && (n <=? 122))
   || (n =? 170) || (n =? 178) || (n =? 179) || (n =? 181) || (n =? 185)
   || (n =? 186) || ((188 <=? n) && (n <=? 190))
   || ((192 <=? n) && (n <=? 214)) || ((216 <=? n) && (n <=? 246))
   || ((248 <=? n) && (n <=? 255)))%nat.

(** [str.isalnum] on one character, code points below 256. *)
Definition isalnum (c : ascii) : bool :=
  is_word c && negb (Ascii.eqb c "_").

Fixpoint map_chars (f : ascii -> ascii) (s : string) : string :=
  match s with
  | EmptyString => EmptyString
  | String c s' => String (f c) (map_chars f s')
  end.

Fixpoint filter_chars (p : ascii -> bool) (s : string) : string :=
  match s with
  | EmptyString => EmptyString
  | String c s' => if p c then String c (filter_chars p s') else filter_chars p s'
  end.

(** [re.sub(r"[^\w\-_.]", "_", sheet_name_str)] of [process_excel_file]. *)
Definition sheet_safe_name (sheet_name : string) : string :=
  map_chars (fun c =>
               if is_word c || Ascii.eqb c "-" || Ascii.eqb c "_"
                  || Ascii.eqb c "."
               then c else "_"%char)
            sheet_name.

(** Lines 79-80 of [process_excel_and_categorize]: the first 30 characters
    of the question, spaces replaced by underscores, and only letters, digits,
    underscores and hyphens kept. *)
Definition question_safe_name (question : string) : string :=
  filter_chars (fun c => isalnum c || Ascii.eqb c "_" || Ascii.eqb c "-")
    (map_chars (fun c => if Ascii.eqb c " " then "_"%char else c)
       (String.substring 0 30 question)).

(** ** Notions for the properties of the converter *)

(** Every character of the string is of the class. *)
Fixpoint all_of (p : ascii -> bool) (s : string) : bool :=
  match s with
  | EmptyString => true
  | String c s' => p c && all_of p s'
  end.

(** The string does not begin with a character of the class. *)
Definition head_not (p : ascii -> bool) (s : string) : bool :=
  match s with
  | EmptyString => true
  | String c _ => negb (p c)
  end.
(** * Properties *)

(** ** Checks of the library functions against Python *)

Example md5_abc :
  MD5.hexdigest (PyStr.encode "abc") = "900150983cd24fb0d6963f7d28e17f72".
Proof. vm_compute. reflexivity. Qed.

Example md5_two_blocks :
  MD5.hexdigest (PyStr.encode
    "12345678901234567890123456789012345678901234567890123456789012345678901234567890")
  = "57edf4a22be3c955ac49da2e2107b67a".
Proof. vm_compute. reflexivity. Qed.

Example md5_utf8 :
  MD5.hexdigest (PyStr.encode (String (ascii_of_nat 233) ":m"))
  = "f2a0f39b79adc307cccc6037640f2e2a".
Proof. vm_compute. reflexivity. Qed.

Example split_ex : PyStr.split "," "a,,b ," = ["a"; ""; "b "; ""].
Proof. reflexivity. Qed.

Example strip_ex : PyStr.strip "  Comms and engagement
 " = "Comms and engagement".
Proof. reflexivity. Qed.

Example repr_list :
  PyRepr.str (JList [JNum 1; JStr "a"; JNull; JBool true;
                     JObj [("k", JList [JNum (-2)])]])
  = "[1, 'a', None, True, {'k': [-2]}]".
Proof. reflexivity. Qed.

Example repr_quotes :
  PyRepr.repr (JStr "a'b") = String PyRepr.dquote ("a'b" ++ String PyRepr.dquote "").
Proof. reflexivity. Qed.

(** ** The docstring examples of [extract_categories] *)

Example extract_doc1 :
  extract_categories "Funding, Data" = {[ "Funding"; "Data" ]}.
Proof. vm_compute. reflexivity. Qed.

Example extract_doc2 :
  extract_categories "This text is about Funding and Governance."
  = {[ "Funding"; "Governance" ]}.
Proof. vm_compute. reflexivity. Qed.

Example extract_doc3 :
  extract_categories "None of these categories apply" = {[ "Other" ]}.
Proof. vm_compute. reflexivity. Qed.

(** ** The end-to-end example of the specification *)

Example end_to_end :
  let '(out, st, _, _) :=
    process_batch example_items 3 "llama3" None example_reply (fun k => 2 - k)
      (World ∅ ∅) in
  out = [ [("id", JStr "1"); ("description", JStr "We need more funding");
           ("categories", JList [JStr "Funding"])];
          [("id", JStr "2"); ("description", JStr "no relevant info");
           ("categories", JList [JStr "Other"])] ]
  /\ st = Completed.
Proof. vm_compute. split; reflexivity. Qed.

(** With two items in one window, the later item's reply arriving first
    changes the order of the cache writes and not the order of the records. *)
Example window_completion_order :
  let run latency :=
    process_batch example_items 2 "llama3" (Some "cache") example_reply
      latency (World ∅ ∅) in
  yielded (run (fun k => k)) = yielded (run (fun k => 2 - k))
  /\ written (snd (run (fun k => k)))
     = reverse (written (snd (run (fun k => 2 - k))))
  /\ length (written (snd (run (fun k => k)))) = 2.
Proof. vm_compute. repeat split; reflexivity. Qed.

(** ** Where [process_item] raises *)

(** A cache file holding JSON that is not an object: [cached["categories"]]
    raises [TypeError], which the [except] clause does not catch. *)
Example process_item_type_error :
  fst (fst (process_item [("description", JStr "We need more funding")]
              "llama3" (Some "cache") TransportError
              (World ∅ {[ cache_path "cache" (JStr "We need more funding")
                            "llama3" := Doc (JList []) ]})))
  = Raised TypeError.
Proof. vm_compute. reflexivity. Qed.

(** A 2xx response whose body is not JSON: [response.json()] raises an
    exception that is not an [httpx.HTTPError]. *)
Example process_item_bad_body :
  fst (fst (process_item [("description", JStr "We need more funding")]
              "llama3" None (Response 200 None) (World ∅ ∅)))
  = Raised JSONDecodeError.
Proof. vm_compute. reflexivity. Qed.

(** ** The label extractor *)

Section Extractor.

Implicit Types (response item category : string) (detected : gset string).

(** Both loops of [extract_categories] add [g a] for the elements that pass
    a test, and nothing else. *)
Lemma elem_of_foldl_add {A} (g : A -> string) (P : A -> bool) (l : list A)
    detected x :
  x ∈ foldl (fun d a => if P a then d ∪ {[ g a ]} else d) detected l
  <-> x ∈ detected \/ exists a, a ∈ l /\ P a = true /\ g a = x.
Proof.
  revert detected. induction l as [|a l IH]; intros detected; simpl.
  - split; [auto | intros [H | (a & Ha & _)]; [done | by apply elem_of_nil in Ha]].
  - rewrite IH. split.
    + intros [H | (b & Hb & HP & Hg)].
      * destruct (P a) eqn:HPa.
        -- apply elem_of_union in H as [H | H]; [by left |].
           apply elem_of_singleton in H. right. exists a.
           split; [apply list_elem_of_here | done].
        -- by left.
      * right. exists b. split; [by apply list_elem_of_further | done].
    + intros [H | (b & Hb & HP & Hg)].
      * left. destruct (P a); [apply elem_of_union; by left | done].
      * apply elem_of_cons in Hb as [-> | Hb].
        -- left. rewrite HP. apply elem_of_union. right.
           by apply elem_of_singleton.
        -- right. by exists b.
Qed.

Lemma elem_of_exact_pass response x :
  x ∈ exact_pass response
  <-> x ∈ CATEGORIES
      /\ exists item, item ∈ PyStr.split "," response /\ PyStr.strip item = x.
Proof.
  unfold exact_pass.
  rewrite (elem_of_foldl_add PyStr.strip
             (fun a => bool_decide (PyStr.strip a ∈ CATEGORIES))).
  split.
  - intros [H | (a & Ha & HP & Hg)]; [by apply not_elem_of_empty in H |].
    apply bool_decide_eq_true in HP. subst x. eauto.
  - intros (HC & a & Ha & Hg). right. exists a. subst x.
    split; [done |]. split; [by apply bool_decide_eq_true | done].
Qed.

Lemma elem_of_substring_pass response x :
  x ∈ substring_pass response
  <-> x ∈ CATEGORIES
      /\ PyStr.contains (PyStr.lower x) (PyStr.lower response) = true.
Proof.
  unfold substring_pass.
  rewrite (elem_of_foldl_add (fun c => c)
             (fun c => PyStr.contains (PyStr.lower c) (PyStr.lower response))).
  split.
  - intros [H | (a & Ha & HP & Hg)]; [by apply not_elem_of_empty in H |].
    by subst x.
  - intros [HC HP]. right. by exists x.
Qed.

(** The ordered fallback, case by case. *)
Lemma extract_categories_cases response :
  extract_categories response =
    if bool_decide (exact_pass response = ∅) then
      if bool_decide (substring_pass response = ∅) then {[ "Other" ]}
      else substring_pass response
    else exact_pass response.
Proof.
  unfold extract_categories.
  destruct (bool_decide (exact_pass response = ∅)) eqn:He.
  - destruct (bool_decide (substring_pass response = ∅)) eqn:Hs; [| done].
    apply bool_decide_eq_true in Hs. rewrite Hs. apply (left_id_L ∅ (∪)).
  - by rewrite He.
Qed.

Lemma exact_pass_empty response :
  (forall item, item ∈ PyStr.split "," response ->
                PyStr.strip item ∉ CATEGORIES) ->
  exact_pass response = ∅.
Proof.
  intros H. apply set_eq. intros x. rewrite elem_of_exact_pass. split.
  - intros (HC & item & Hi & <-). by destruct (H item Hi).
  - intros Hx. by apply not_elem_of_empty in Hx.
Qed.

Lemma substring_pass_empty response :
  (forall category, category ∈ CATEGORIES ->
     PyStr.contains (PyStr.lower category) (PyStr.lower response) = false) ->
  substring_pass response = ∅.
Proof.
  intros H. apply set_eq. intros x. rewrite elem_of_substring_pass. split.
  - intros [HC HP]. rewrite (H x HC) in HP. discriminate.
  - intros Hx. by apply not_elem_of_empty in Hx.
Qed.

End Extractor.

(** C5. A response with no taxonomy label text at all, neither as a
    comma-separated segment nor as a case-insensitive substring, is
    categorised as exactly ["Other"].  [extract_categories] is a total
    function: none of the string operations it is made of can fail. *)
Theorem extract_categories_no_label response :
  (forall item, item ∈ PyStr.split "," response ->
                PyStr.strip item ∉ CATEGORIES) ->
  (forall category, category ∈ CATEGORIES ->
     PyStr.contains (PyStr.lower category) (PyStr.lower response) = false) ->
  extract_categories response = {[ "Other" ]}.
Proof.
  intros Hexact Hsub. rewrite extract_categories_cases.
  rewrite (exact_pass_empty _ Hexact), (substring_pass_empty _ Hsub).
  by rewrite !bool_decide_eq_true_2.
Qed.

Lemma extract_categories_no_label_witness :
  extract_categories "None of these categories apply" = {[ "Other" ]}.
Proof.
  apply extract_categories_no_label.
  - apply Forall_forall. apply (bool_decide_unpack _). vm_compute. reflexivity.
  - apply Forall_forall. apply (bool_decide_unpack _). vm_compute. reflexivity.
Defined.

(** C4, as the code has it. When no comma-separated segment is a label, the
    result is exactly the set of labels whose lower-cased text is a substring
    of the lower-cased response, wherever it occurs, inside a longer word
    included; and it is ["Other"] alone when there is no such label. *)
Theorem extract_categories_substring response category :
  (forall item, item ∈ PyStr.split "," response ->
                PyStr.strip item ∉ CATEGORIES) ->
  category ∈ extract_categories response
  <-> (category ∈ CATEGORIES
       /\ PyStr.contains (PyStr.lower category) (PyStr.lower response) = true)
      \/ (category = "Other"
          /\ forall c, c ∈ CATEGORIES ->
               PyStr.contains (PyStr.lower c) (PyStr.lower response) = false).
Proof.
  intros Hexact. rewrite extract_categories_cases.
  rewrite (exact_pass_empty _ Hexact), bool_decide_eq_true_2 by done.
  destruct (bool_decide (substring_pass response = ∅)) eqn:Hs.
  - apply bool_decide_eq_true in Hs. rewrite elem_of_singleton. split.
    + intros ->. right. split; [done |]. intros c Hc.
      destruct (PyStr.contains _ _) eqn:Hin; [| done].
      assert (c ∈ substring_pass response) as Hc'
        by (by apply elem_of_substring_pass).
      rewrite Hs in Hc'. by apply not_elem_of_empty in Hc'.
    + intros [[HC Hin] | [-> _]]; [| done].
      assert (category ∈ substring_pass response) as Hc'
        by (by apply elem_of_substring_pass).
      rewrite Hs in Hc'. by apply not_elem_of_empty in Hc'.
  - apply bool_decide_eq_false in Hs. rewrite elem_of_substring_pass. split.
    + by left.
    + intros [H | [-> Hnone]]; [done |]. destruct Hs.
      by apply substring_pass_empty.
Qed.

Lemma extract_categories_substring_witness :
  "Governance" ∈ extract_categories "This text is about Funding and Governance.".
Proof.
  apply extract_categories_substring.
  - apply Forall_forall. apply (bool_decide_unpack _). vm_compute. reflexivity.
  - left. split; [| vm_compute; reflexivity].
    apply (bool_decide_unpack _). vm_compute. reflexivity.
Defined.

(** C4, as stated, fails: in "Funding for the database" the only label that
    stands as a word is Funding, and the text of Data occurs only inside
    "database"; the result has both. *)
Lemma extract_categories_partial_word :
  exact_pass "Funding for the database" = ∅
  /\ filter (fun c => embedded_as_word c "Funding for the database" = true)
       CATEGORIES = ["Funding"]
  /\ extract_categories "Funding for the database" = {[ "Funding"; "Data" ]}.
Proof. vm_compute. repeat split; reflexivity. Qed.

(** ** Comma-separated answers *)

Section CommaList.

Import PyStr.

Lemma split_no_sep sep s :
  PyRepr.mem_char sep s = false -> split sep s = [s].
Proof.
  induction s as [|c s IH]; simpl; [done |].
  rewrite Ascii.eqb_sym. intros H. apply orb_false_iff in H as [Hc Hs].
  rewrite Hc, (IH Hs). done.
Qed.

Lemma split_app sep a b :
  PyRepr.mem_char sep a = false ->
  split sep (a ++ String sep b) = a :: split sep b.
Proof.
  induction a as [|c a IH]; simpl.
  - intros _. by rewrite Ascii.eqb_refl.
  - rewrite Ascii.eqb_sym. intros H. apply orb_false_iff in H as [Hc Ha].
    rewrite Hc, (IH Ha). done.
Qed.

Lemma split_join sep (parts : list string) :
  parts <> [] ->
  Forall (fun p => PyRepr.mem_char sep p = false) parts ->
  split sep (join (String sep EmptyString) parts) = parts.
Proof.
  induction parts as [|p ps IH]; [done |]. intros _ Hall.
  apply Forall_cons in Hall as [Hp Hps].
  destruct ps as [|q ps].
  - by apply split_no_sep.
  - change (join (String sep EmptyString) (p :: q :: ps))
      with (p ++ String sep (join (String sep EmptyString) (q :: ps))).
    rewrite (split_app _ _ _ Hp). f_equal. by apply IH.
Qed.

Lemma mem_char_app c a b :
  PyRepr.mem_char c (a ++ b) = PyRepr.mem_char c a || PyRepr.mem_char c b.
Proof. induction a as [|x a IH]; simpl; [done |]. by rewrite IH, orb_assoc. Qed.

Lemma blank_no_comma s : blank s = true -> PyRepr.mem_char "," s = false.
Proof.
  induction s as [|c s IH]; [done |]. cbn [blank PyRepr.mem_char].
  intros H. apply andb_true_iff in H as [Hc Hs]. rewrite (IH Hs), orb_false_r.
  apply Ascii.eqb_neq. intros <-. vm_compute in Hc. discriminate.
Qed.

Lemma lstrip_blank_app a s : blank a = true -> lstrip (a ++ s) = lstrip s.
Proof.
  induction a as [|c a IH]; simpl; [done |].
  intros H. apply andb_true_iff in H as [Hc Ha]. rewrite Hc. by apply IH.
Qed.

Lemma rstrip_blank b : blank b = true -> rstrip b = EmptyString.
Proof.
  induction b as [|c b IH]; simpl; [done |].
  intros H. apply andb_true_iff in H as [Hc Hb]. by rewrite (IH Hb), Hc.
Qed.

Lemma rstrip_app_blank s b : blank b = true -> rstrip (s ++ b) = rstrip s.
Proof.
  intros Hb. induction s as [|c s IH]; simpl.
  - by apply rstrip_blank.
  - by rewrite IH.
Qed.

Lemma categories_trimmed : Forall (fun c => trimmed c = true) CATEGORIES.
Proof. repeat constructor. Qed.

Lemma strip_segment g : valid_segment g -> strip (segment_text g) = label g.
Proof.
  intros (Hl & Hc & Ht). unfold strip, segment_text.
  rewrite (lstrip_blank_app _ _ Hl).
  pose proof categories_trimmed as Hall. rewrite Forall_forall in Hall.
  specialize (Hall _ Hc). unfold trimmed in Hall.
  apply andb_true_iff in Hall as [Hall Hr].
  apply andb_true_iff in Hall as [_ Hfirst].
  apply String.eqb_eq in Hr.
  destruct (label g) as [|x l] eqn:El; [discriminate |].
  simpl. apply negb_true_iff in Hfirst. rewrite Hfirst.
  change (String x (l ++ trail g)) with (String x l ++ trail g).
  by rewrite (rstrip_app_blank _ _ Ht).
Qed.

Lemma segment_no_comma g :
  valid_segment g -> PyRepr.mem_char "," (segment_text g) = false.
Proof.
  intros (Hl & Hc & Ht). unfold segment_text. rewrite !mem_char_app.
  rewrite (blank_no_comma _ Hl), (blank_no_comma _ Ht).
  pose proof categories_trimmed as Hall. rewrite Forall_forall in Hall.
  specialize (Hall _ Hc). unfold trimmed in Hall.
  apply andb_true_iff in Hall as [Hall _].
  apply andb_true_iff in Hall as [Hcomma _].
  apply negb_true_iff in Hcomma. by rewrite Hcomma.
Qed.

Lemma split_comma_list segs :
  segs <> [] -> Forall valid_segment segs ->
  split "," (comma_list segs) = map segment_text segs.
Proof.
  intros Hne Hall. unfold comma_list. apply (split_join ","%char).
  - by destruct segs.
  - apply Forall_map. eapply Forall_impl; [exact Hall |].
    intros g Hg. by apply segment_no_comma.
Qed.

Lemma exact_pass_comma_list segs :
  segs <> [] -> Forall valid_segment segs ->
  exact_pass (comma_list segs) = list_to_set (map label segs).
Proof.
  intros Hne Hall. apply set_eq. intros x.
  rewrite elem_of_exact_pass, (split_comma_list _ Hne Hall).
  rewrite elem_of_list_to_set. rewrite Forall_forall in Hall. split.
  - intros (_ & item & Hi & <-). apply list_elem_of_fmap in Hi as (g & -> & Hg).
    rewrite (strip_segment _ (Hall _ Hg)). apply list_elem_of_fmap. eauto.
  - intros Hx. apply list_elem_of_fmap in Hx as (g & -> & Hg).
    split; [apply (Hall _ Hg) |]. exists (segment_text g).
    split; [apply list_elem_of_fmap; eauto | by apply strip_segment; apply Hall].
Qed.

End CommaList.

(** C3. A response that is a comma-separated list of valid labels, each with
    any whitespace around it, is categorised as exactly the set of those
    labels; the result is the same for every order of the list. *)
Theorem extract_categories_comma_list (segs : list segment) :
  segs <> [] -> Forall valid_segment segs ->
  extract_categories (comma_list segs) = list_to_set (map label segs)
  /\ forall segs', segs' ≡ₚ segs ->
       extract_categories (comma_list segs') = extract_categories (comma_list segs).
Proof.
  assert (forall l, l <> [] -> Forall valid_segment l ->
            extract_categories (comma_list l) = list_to_set (map label l)) as Hone.
  { intros l Hne Hall. rewrite extract_categories_cases.
    rewrite (exact_pass_comma_list _ Hne Hall).
    rewrite bool_decide_eq_false_2; [done |].
    destruct l as [|g l]; [done |]. simpl. set_solver. }
  intros Hne Hall. split; [by apply Hone |].
  intros segs' Hperm. rewrite (Hone segs), (Hone segs'); try done.
  - apply set_eq. intros x. rewrite !elem_of_list_to_set. by rewrite Hperm.
  - intros ->. apply Permutation_nil_l in Hperm. done.
  - by rewrite Hperm.
Qed.

Lemma extract_categories_comma_list_witness :
  extract_categories " Data,Comms and engagement  , Funding"
  = {[ "Data"; "Comms and engagement"; "Funding" ]}.
Proof.
  pose proof (extract_categories_comma_list
    [Segment " " "Data" ""; Segment "" "Comms and engagement" "  ";
     Segment " " "Funding" ""]) as H.
  destruct H as [H _]; [done | |].
  - repeat constructor; simpl; set_solver.
  - etrans; [exact H |]. vm_compute. reflexivity.
Defined.

(** ** The inference client *)

Lemma ollama_result_failed reply :
  request_failed reply ->
  ollama_result reply = (Returned "", [EvPrint "Error calling Ollama API"]).
Proof.
  destruct reply as [|status body]; simpl; [done |].
  intros H. unfold is_success.
  destruct (200 <=? status)%Z eqn:H1, (status <=? 299)%Z eqn:H2; simpl; try done.
  apply Z.leb_le in H1, H2. lia.
Qed.

(** C8. When the inference request fails with a transport or HTTP-status
    failure, [get_ollama_response] returns the empty string and does not
    raise; the call of [process_item] that awaits it returns a record. *)
Theorem get_ollama_response_failure (text : json) (model : string)
    (reply : http_reply) :
  request_failed reply ->
  fst (get_ollama_response text model reply) = Returned ""
  /\ forall item cache_file w,
       exists r w' tr,
         process_item_resume item text cache_file reply w = (Returned r, w', tr).
Proof.
  intros H. unfold get_ollama_response, process_item_resume.
  rewrite (ollama_result_failed _ H). split; [done |].
  intros item [f|] w; simpl; eauto.
Qed.

Lemma get_ollama_response_failure_witness :
  fst (get_ollama_response (JStr "Need more funding") "llama3"
         (Response 503 None)) = Returned "".
Proof.
  apply (get_ollama_response_failure (JStr "Need more funding") "llama3"
           (Response 503 None)).
  simpl. lia.
Defined.

(** ** Dictionaries *)

Lemma dict_lookup_set k v (d : dict) : dict_lookup k (dict_set k v d) = Some v.
Proof.
  induction d as [|[k' v'] d IH]; simpl.
  - by rewrite String.eqb_refl.
  - destruct (String.eqb k' k) eqn:E; simpl; by rewrite E.
Qed.

(** ** The item processor *)

(** C7. A record whose description is empty or absent is returned with the
    categories ["Other"], with no effect at all: no inference request, no
    access to the cache, and the world as it was; with or without a cache
    directory. *)
Theorem process_item_empty_text (item : dict) (model : string)
    (cache_dir : option string) (reply : http_reply) (w : world) :
  dict_lookup "description" item = None
  \/ dict_lookup "description" item = Some (JStr "") ->
  process_item item model cache_dir reply w
  = (Returned (dict_set "categories" (JList [JStr "Other"]) item), w, []).
Proof.
  intros H. unfold process_item, process_item_begin, dict_get.
  by destruct H as [-> | ->].
Qed.

Lemma process_item_empty_text_witness :
  process_item [("id", JStr "7"); ("description", JStr "")] "llama3"
    (Some "cache") TransportError (World ∅ ∅)
  = (Returned [("id", JStr "7"); ("description", JStr "");
               ("categories", JList [JStr "Other"])],
     World ∅ ∅, []).
Proof.
  apply (process_item_empty_text [("id", JStr "7"); ("description", JStr "")]).
  right. reflexivity.
Defined.

(** ** The response cache *)

Lemma mkdir_idemp d w : mkdir d (mkdir d w) = mkdir d w.
Proof.
  unfold mkdir. simpl. f_equal.
  by rewrite <- (assoc_L (∪)), (idemp_L (∪) {[ d ]}).
Qed.

Lemma cache_read_entry w f text categories :
  files w !! f = Some (Doc (cache_entry text categories)) ->
  cache_read w f = (Hit (JList (map JStr categories)), [EvExists f; EvRead f]).
Proof. intros H. unfold cache_read. by rewrite H. Qed.

Lemma cache_read_absent w f :
  files w !! f = None -> cache_read w f = (Miss, [EvExists f]).
Proof. intros H. unfold cache_read. by rewrite H. Qed.

(** C1, as the code has it. A [put] followed by a [get] of the same text and
    model returns the labels that were put; a [get] misses when no file is
    stored under the key of its text and model; and a [put] leaves alone the
    file of every pair whose key differs from its own. *)
Theorem cache_round_trip (w : world) (cache_dir : string) (text : json)
    (model : string) (labels : gset string) :
  (exists l, cache_get (cache_put w cache_dir text model labels)
               cache_dir text model = Hit (JList (map JStr l))
             /\ list_to_set l = labels)
  /\ (forall w' text' model',
        files w' !! cache_path cache_dir text' model' = None ->
        cache_get w' cache_dir text' model' = Miss)
  /\ (forall text' model',
        cache_path cache_dir text' model' <> cache_path cache_dir text model ->
        files (cache_put w cache_dir text model labels)
          !! cache_path cache_dir text' model'
        = files w !! cache_path cache_dir text' model').
Proof.
  split; [| split].
  - exists (elements labels). split; [| apply list_to_set_elements_L].
    unfold cache_get, cache_put, cache_write. simpl.
    erewrite cache_read_entry; [done |]. simpl. apply lookup_insert_eq.
  - intros w' text' model' H. unfold cache_get.
    by rewrite cache_read_absent.
  - intros text' model' Hne. unfold cache_put, cache_write. simpl.
    by apply lookup_insert_ne.
Qed.

Lemma cache_round_trip_witness :
  cache_get (cache_put (World ∅ ∅) "cache" (JStr "a") "m" {[ "Data" ]})
    "cache" (JStr "b") "m" = Miss.
Proof.
  destruct (cache_round_trip (World ∅ ∅) "cache" (JStr "a") "m" {[ "Data" ]})
    as (_ & Hmiss & Hother).
  apply Hmiss. etrans; [apply Hother |]; [| reflexivity].
  vm_compute. discriminate.
Defined.

(** C1, as stated, fails: the key is the MD5 of [text:model], and the text
    "a:b" with the model "c" has the key of the text "a" with the model
    "b:c"; what was put for the first pair is found for the second, which was
    never put. *)
Lemma cache_key_shared :
  (JStr "a:b", "c") <> (JStr "a", "b:c")
  /\ cache_get (World ∅ ∅) "cache" (JStr "a") "b:c" = Miss
  /\ cache_get (cache_put (World ∅ ∅) "cache" (JStr "a:b") "c" {[ "Funding" ]})
       "cache" (JStr "a") "b:c"
     = Hit (JList [JStr "Funding"]).
Proof. split; [discriminate |]. vm_compute. split; reflexivity. Qed.

(** ** What [process_item] returns *)

Lemma extract_categories_sound response :
  extract_categories response <> ∅
  /\ forall c, c ∈ extract_categories response -> c ∈ CATEGORIES.
Proof.
  rewrite extract_categories_cases.
  destruct (bool_decide (exact_pass response = ∅)) eqn:He.
  - destruct (bool_decide (substring_pass response = ∅)) eqn:Hs.
    + split; [apply non_empty_singleton_L |].
      intros c Hc. apply elem_of_singleton in Hc as ->.
      apply (bool_decide_unpack _). vm_compute. reflexivity.
    + apply bool_decide_eq_false in Hs. split; [done |].
      intros c Hc. by apply elem_of_substring_pass in Hc as [Hc _].
  - apply bool_decide_eq_false in He. split; [done |].
    intros c Hc. by apply elem_of_exact_pass in Hc as [Hc _].
Qed.


Lemma taxonomy_labels_other : taxonomy_labels (JList [JStr "Other"]).
Proof.
  exists ["Other"]. split; [done |]. split; [done |].
  repeat constructor.
Qed.

Lemma ollama_result_contract reply :
  reply_in_contract reply -> exists s tr, ollama_result reply = (Returned s, tr).
Proof.
  destruct reply as [|status body]; simpl; [eauto |].
  destruct (is_success status); simpl; [| eauto].
  intros H. destruct (H eq_refl) as (result & s & -> & Hs).
  rewrite Hs. eauto.
Qed.

Lemma sound_cache_mkdir d w : sound_cache w -> sound_cache (mkdir d w).
Proof. done. Qed.



Lemma process_item_resume_contract item text cache_file reply w :
  reply_in_contract reply ->
  exists r w' tr,
    process_item_resume item text cache_file reply w = (Returned r, w', tr).
Proof.
  intros H. unfold process_item_resume.
  destruct (ollama_result_contract _ H) as (s & tr & ->).
  destruct cache_file as [f|]; simpl; eauto.
Qed.

(** The first part of the call: it ends in a record with sound categories,
    or it suspends; it never fails on a sound cache. *)
Lemma process_item_begin_sound item model cache_dir w s w' tr :
  process_item_begin item model cache_dir w = (s, w', tr) ->
  sound_cache w ->
  sound_cache w'
  /\ match s with
     | Done (Returned r) =>
         exists v, dict_lookup "categories" r = Some v /\ taxonomy_labels v
     | Done (Raised _) => False
     | Await _ _ => True
     end.
Proof.
  unfold process_item_begin.
  destruct (negb (truthy _)).
  { intros [= <- <- <-] Hw. split; [done |].
    eexists. split; [apply dict_lookup_set | apply taxonomy_labels_other]. }
  destruct cache_dir as [d|]; [| by intros [= <- <- <-]].
  unfold cache_read.
  destruct (files (mkdir d w) !! _) as [content|] eqn:Ef;
    [| by intros [= <- <- <-]].
  intros H Hw. pose proof (Hw _ _ Ef) as Hsound.
  destruct content as [|j|]; [by injection H as <- <- <- | | done].
  destruct j as [| | | | |cached]; try done.
  simpl in Hsound.
  destruct (dict_lookup "categories" cached) as [v|];
    injection H as <- <- <-; [| done].
  split; [done |]. eexists. split; [apply dict_lookup_set | done].
Qed.






(** ** Processing with the cache enabled *)

Lemma mkdir_exists d w : d ∈ dirs w -> mkdir d w = w.
Proof.
  intros Hd. destruct w as [ds fs]. unfold mkdir. simpl in *. f_equal.
  apply set_eq. intros x. rewrite elem_of_union, elem_of_singleton.
  split; [intros [Hx | ->]; assumption | by left].
Qed.

Lemma posts_app tr1 tr2 : posts (tr1 ++ tr2) = posts tr1 + posts tr2.
Proof. induction tr1 as [|ev tr1 IH]; simpl; [done | rewrite IH; lia]. Qed.

Lemma posts_ollama_result reply : posts (snd (ollama_result reply)) = 0.
Proof.
  destruct reply as [|status body]; simpl; [done |].
  destruct (is_success status); simpl; [| done].
  destruct body as [[| | | | |result]|]; try done.
  by destruct (dict_get "response" (JStr "") result).
Qed.

Lemma posts_cache_read w f : posts (snd (cache_read w f)) = 0.
Proof.
  unfold cache_read. destruct (files w !! f) as [[|[| | | | |cached]|]|]; try done.
  by destruct (dict_lookup "categories" cached).
Qed.

(** A hit: the record is returned with what the file has as [categories]. *)
Lemma process_item_hit item model d reply w v :
  truthy (text_of item) = true ->
  cache_get w d (text_of item) model = Hit v ->
  process_item item model (Some d) reply w
  = (Returned (dict_set "categories" v item), mkdir d w,
     EvMkdir d
       :: snd (cache_read (mkdir d w) (cache_path d (text_of item) model))).
Proof.
  intros Ht Hhit. unfold process_item, process_item_begin.
  fold (text_of item). rewrite Ht. simpl. unfold cache_get in Hhit.
  destruct (cache_read (mkdir d w) _) as [r tr]. simpl in Hhit. by subst r.
Qed.

(** A miss with an answer of the inference client: the labels extracted from
    it are returned and written to the cache file. *)
Lemma process_item_miss item model d reply w response tr0 :
  truthy (text_of item) = true ->
  cache_get w d (text_of item) model = Miss ->
  ollama_result reply = (Returned response, tr0) ->
  let f := cache_path d (text_of item) model in
  let categories := elements (extract_categories response) in
  process_item item model (Some d) reply w
  = (Returned (dict_set "categories" (JList (map JStr categories)) item),
     World (dirs (mkdir d w))
       (<[f := Doc (cache_entry (text_of item) categories)]> (files w)),
     ((EvMkdir d :: snd (cache_read (mkdir d w) f)
         ++ [ollama_request (text_of item) model])
      ++ tr0 ++ [EvWrite f (cache_entry (text_of item) categories)])%list).
Proof.
  intros Ht Hmiss Hr. unfold process_item, process_item_begin.
  fold (text_of item). rewrite Ht. simpl. unfold cache_get in Hmiss.
  destruct (cache_read (mkdir d w) _) as [r tr]. simpl in Hmiss. subst r.
  unfold process_item_resume. rewrite Hr. done.
Qed.

(** Once the file of a text holds an entry written by [process_item], a call
    for that text is a hit that changes nothing and asks nothing of the
    inference service. *)
Lemma process_item_served item model d reply w categories :
  truthy (text_of item) = true ->
  d ∈ dirs w ->
  files w !! cache_path d (text_of item) model
  = Some (Doc (cache_entry (text_of item) categories)) ->
  process_item item model (Some d) reply w
  = (Returned (dict_set "categories" (JList (map JStr categories)) item), w,
     [EvMkdir d; EvExists (cache_path d (text_of item) model);
      EvRead (cache_path d (text_of item) model)]).
Proof.
  intros Ht Hd Hf.
  assert (cache_read (mkdir d w) (cache_path d (text_of item) model)
          = (Hit (JList (map JStr categories)),
             [EvExists (cache_path d (text_of item) model);
              EvRead (cache_path d (text_of item) model)])) as Hread.
  { rewrite (mkdir_exists _ _ Hd).
    by apply (cache_read_entry _ _ (text_of item)). }
  rewrite (process_item_hit _ _ _ _ _ (JList (map JStr categories)) Ht).
  - by rewrite Hread, (mkdir_exists _ _ Hd).
  - unfold cache_get. by rewrite Hread.
Qed.

Lemma process_item_total item model cache_dir reply w :
  sound_cache w -> reply_in_contract reply ->
  exists r w' tr,
    process_item item model cache_dir reply w = (Returned r, w', tr).
Proof.
  intros Hw Hc. unfold process_item.
  destruct (process_item_begin item model cache_dir w) as [[s w1] tr1] eqn:Eb.
  destruct (process_item_begin_sound _ _ _ _ _ _ _ Eb Hw) as [Hw1 Hs].
  destruct s as [[r|e]|text cache_file]; [eauto | done |].
  destruct (process_item_resume_contract item text cache_file reply w1 Hc)
    as (r & w' & tr & ->). eauto.
Qed.










(** ** A failed inference is cached *)

Lemma elements_extract_empty : elements (extract_categories "") = ["Other"].
Proof. vm_compute. reflexivity. Qed.

(** C10. With the cache enabled, when a record with non-empty text misses
    the cache and its inference request fails, [process_item] returns the
    categories ["Other"] after one request and writes them to the cache file
    of the text and model; from then on every call of [process_item] for that
    text and model returns ["Other"] from the file, sends no request and
    leaves the world as it is, whatever the inference service would answer. *)
Theorem failed_inference_cached (item : dict) (model d : string)
    (reply : http_reply) (w : world) :
  truthy (text_of item) = true ->
  cache_get w d (text_of item) model = Miss ->
  request_failed reply ->
  exists w1 tr1,
    process_item item model (Some d) reply w
    = (Returned (dict_set "categories" (JList [JStr "Other"]) item), w1, tr1)
    /\ posts tr1 = 1
    /\ files w1 !! cache_path d (text_of item) model
       = Some (Doc (cache_entry (text_of item) ["Other"]))
    /\ forall runs : list (dict * http_reply),
         Forall (fun run => text_of (fst run) = text_of item) runs ->
         exists tr,
           process_each runs model (Some d) w1
           = (map (fun run =>
                     Returned (dict_set "categories" (JList [JStr "Other"])
                                 (fst run))) runs,
              w1, tr)
           /\ posts tr = 0.
Proof.
  intros Ht Hmiss Hfail.
  pose proof (process_item_miss _ _ _ _ _ _ _ Ht Hmiss
                (ollama_result_failed _ Hfail)) as H1.
  simpl in H1. rewrite elements_extract_empty in H1.
  eexists _, _. split; [exact H1 |]. split; [| split].
  - cbn [posts is_post]. rewrite !posts_app, posts_cache_read. reflexivity.
  - simpl. apply lookup_insert_eq.
  - induction runs as [|[item' reply'] runs IH]; intros Hall.
    + by exists [].
    + apply Forall_cons in Hall as [Hi Hall]. simpl in Hi.
      destruct (IH Hall) as (tr & Hrest & Hp).
      cbn [process_each].
      rewrite (process_item_served item' model d reply' _ ["Other"]).
      * rewrite Hrest. eexists. split; [reflexivity |].
        rewrite posts_app, Hp. reflexivity.
      * by rewrite Hi.
      * simpl. apply elem_of_union. right. by apply elem_of_singleton.
      * rewrite Hi. simpl. apply lookup_insert_eq.
Qed.

Lemma failed_inference_cached_witness :
  exists w1 tr1 tr2,
    process_item [("description", JStr "We need more funding")] "llama3"
      (Some "cache") (Response 500 None) (World ∅ ∅)
    = (Returned [("description", JStr "We need more funding");
                 ("categories", JList [JStr "Other"])], w1, tr1)
    /\ process_each
         [([("description", JStr "We need more funding")],
           Response 200 (Some (JObj [("response", JStr "Funding")])))]
         "llama3" (Some "cache") w1
       = ([Returned [("description", JStr "We need more funding");
                     ("categories", JList [JStr "Other"])]], w1, tr2).
Proof.
  destruct (failed_inference_cached
              [("description", JStr "We need more funding")] "llama3" "cache"
              (Response 500 None) (World ∅ ∅)) as (w1 & tr1 & H1 & _ & _ & Hall).
  - reflexivity.
  - vm_compute. reflexivity.
  - simpl. lia.
  - destruct (Hall [([("description", JStr "We need more funding")],
                     Response 200 (Some (JObj [("response", JStr "Funding")])))])
      as (tr2 & H2 & _).
    + by repeat constructor.
    + exists w1, tr1, tr2. split; [exact H1 | exact H2].
Defined.

(** ** The batch scheduler *)

Section Scheduler.

Context (model : string) (cache_dir : option string).

Lemma process_item_begin_annotates item w r w' tr :
  process_item_begin item model cache_dir w = (Done (Returned r), w', tr) ->
  annotates item r.
Proof.
  unfold process_item_begin. destruct (negb (truthy _)).
  { intros [= <- _ _]. by eexists. }
  destruct cache_dir as [d|]; [| done].
  destruct (cache_read _ _) as [[v| |e] tr0]; [| done | done].
  intros [= <- _ _]. by eexists.
Qed.

Lemma process_item_resume_annotates item text cache_file reply w r w' tr :
  process_item_resume item text cache_file reply w = (Returned r, w', tr) ->
  annotates item r.
Proof.
  unfold process_item_resume.
  destruct (ollama_result reply) as [[response|e] tr0]; [| done].
  destruct cache_file as [f|]; simpl; intros [= <- _ _]; by eexists.
Qed.













End Scheduler.

(** ** Every completion order is the order of some latencies *)

Section CompletionOrder.

Context (key : nat -> nat).

Lemma insert_by_perm p l : insert_by key p l ≡ₚ p :: l.
Proof.
  induction l as [|q l IH]; simpl; [done |].
  destruct (key p <=? key q)%nat; [done |].
  rewrite IH. apply Permutation_swap.
Qed.

Lemma insert_by_sorted p l :
  StronglySorted (by_key key) l -> StronglySorted (by_key key) (insert_by key p l).
Proof.
  induction l as [|q l IH]; simpl; intros Hl.
  - repeat constructor.
  - apply StronglySorted_cons in Hl as [Hq Hl].
    destruct (Nat.leb_spec (key p) (key q)) as [Hle | Hgt].
    + constructor; [by constructor |]. constructor; [done |].
      eapply Forall_impl; [exact Hq |]. unfold by_key. intros x Hx. lia.
    + constructor; [by apply IH |].
      rewrite insert_by_perm. constructor; [| done]. unfold by_key. lia.
Qed.

Lemma completion_order_perm pending : completion_order key pending ≡ₚ pending.
Proof.
  unfold completion_order. induction pending as [|p l IH]; simpl; [done |].
  by rewrite insert_by_perm, IH.
Qed.

Lemma completion_order_sorted pending :
  StronglySorted (by_key key) (completion_order key pending).
Proof.
  unfold completion_order. induction pending as [|p l IH]; simpl.
  - constructor.
  - by apply insert_by_sorted.
Qed.

End CompletionOrder.

Lemma rank_inj order a b :
  a ∈ order -> b ∈ order -> rank order a = rank order b -> a = b.
Proof.
  induction order as [|q order IH]; simpl; [by intros H%elem_of_nil |].
  intros Ha Hb.
  destruct (Nat.eqb_spec a q) as [-> | Hna], (Nat.eqb_spec b q) as [-> | Hnb];
    try done.
  intros [= H]. apply IH; [| | done].
  - by apply elem_of_cons in Ha as [|].
  - by apply elem_of_cons in Hb as [|].
Qed.

Lemma StronglySorted_on {A} (R1 R2 : relation A) l :
  (forall a b, a ∈ l -> b ∈ l -> R1 a b -> R2 a b) ->
  StronglySorted R1 l -> StronglySorted R2 l.
Proof.
  intros Himp Hl. induction Hl as [|x l Hl IH Hx]; [constructor |].
  constructor.
  - apply IH. intros a b Ha Hb. apply Himp; by apply list_elem_of_further.
  - apply Forall_forall. intros y Hy. rewrite Forall_forall in Hx.
    apply Himp; [apply list_elem_of_here | by apply list_elem_of_further | auto].
Qed.

Lemma rank_sorted order :
  NoDup order ->
  StronglySorted (by_key (rank order)) order.
Proof.
  induction 1 as [|q order Hq Hnd IH]; [constructor |].
  constructor.
  - apply (StronglySorted_on (by_key (rank order))); [| done].
    unfold by_key. intros a b Ha Hb Hab. simpl.
    destruct (Nat.eqb_spec a q) as [-> | _]; [done |].
    destruct (Nat.eqb_spec b q) as [-> | _]; [done | lia].
  - apply Forall_forall. intros y Hy. unfold by_key. simpl.
    rewrite Nat.eqb_refl. lia.
Qed.

(** Whatever order the suspended tasks of a window finish in, there are
    latencies for which the model resumes them in that order. *)
Lemma completion_order_any (pending order : list nat) :
  NoDup order -> order ≡ₚ pending ->
  exists latency, completion_order latency pending = order.
Proof.
  intros Hnd Hperm. exists (rank order).
  apply (StronglySorted_unique_strong (by_key (rank order))).
  - unfold by_key. intros a b Ha Hb H1 H2.
    apply (rank_inj order); [| done | lia].
    by rewrite Hperm, <- (completion_order_perm (rank order) pending).
  - apply completion_order_sorted.
  - by apply rank_sorted.
  - by rewrite completion_order_perm.
Qed.



(** * Further properties of [categorizer.py] *)

(** ** The label extractor *)

(** X1. Whatever the response, [extract_categories] returns a set that is
    not empty and holds nothing but labels of the taxonomy. *)
Theorem extract_categories_in_taxonomy (response : string) :
  extract_categories response <> ∅
  /\ extract_categories response ⊆ list_to_set CATEGORIES.
Proof.
  destruct (extract_categories_sound response) as [Hne Hin].
  split; [done |]. intros c Hc. apply elem_of_list_to_set. by apply Hin.
Qed.

(** X2. The comma-separated pass has priority: as soon as one segment of the
    response is a label, the result is exactly the set of the labels that are
    segments, and label text elsewhere in the response counts for nothing. *)
Theorem extract_categories_exact_first (response item0 : string) :
  item0 ∈ PyStr.split "," response ->
  PyStr.strip item0 ∈ CATEGORIES ->
  forall c,
    c ∈ extract_categories response
    <-> c ∈ CATEGORIES
        /\ exists item, item ∈ PyStr.split "," response /\ PyStr.strip item = c.
Proof.
  intros Hitem Hlabel c. rewrite extract_categories_cases.
  rewrite bool_decide_eq_false_2; [apply elem_of_exact_pass |].
  intros Hempty.
  assert (PyStr.strip item0 ∈ exact_pass response) as Hin
    by (apply elem_of_exact_pass; eauto).
  rewrite Hempty in Hin. by apply not_elem_of_empty in Hin.
Qed.

Lemma extract_categories_exact_first_witness :
  extract_categories "Funding, the data is in the workforce plan"
  = {[ "Funding" ]}.
Proof.
  apply set_eq. intros c.
  rewrite (extract_categories_exact_first
             "Funding, the data is in the workforce plan" "Funding").
  - rewrite elem_of_singleton. split.
    + intros (HC & item & Hitem & <-). vm_compute in Hitem.
      apply elem_of_cons in Hitem as [-> | Hitem]; [reflexivity |].
      apply list_elem_of_singleton in Hitem as ->. exfalso. revert HC.
      apply (bool_decide_unpack _). vm_compute. reflexivity.
    + intros ->. split; [by repeat constructor |].
      exists "Funding". split; [| reflexivity]. vm_compute. by constructor.
  - vm_compute. by constructor.
  - vm_compute. by repeat constructor.
Defined.

(** ** [str.strip] *)

Lemma rstrip_idemp s : PyStr.rstrip (PyStr.rstrip s) = PyStr.rstrip s.
Proof.
  induction s as [|c s IH]; [done |]. cbn [PyStr.rstrip].
  destruct (PyStr.rstrip s) as [|c' r] eqn:Er.
  - destruct (PyStr.isspace c) eqn:Ec; [done |]. cbn [PyStr.rstrip]. by rewrite Ec.
  - cbn [PyStr.rstrip]. cbn [PyStr.rstrip] in IH.
    destruct (PyStr.rstrip r) as [|c'' r'] eqn:Er'.
    + destruct (PyStr.isspace c'); [discriminate | by rewrite IH].
    + by rewrite IH.
Qed.

Lemma lstrip_rstrip_head c t :
  PyStr.isspace c = false ->
  PyStr.lstrip (PyStr.rstrip (String c t)) = PyStr.rstrip (String c t).
Proof.
  intros Hc. cbn [PyStr.rstrip].
  destruct (PyStr.rstrip t); rewrite ?Hc; cbn [PyStr.lstrip]; by rewrite Hc.
Qed.

Lemma lstrip_head s :
  PyStr.lstrip s = EmptyString
  \/ exists c t, PyStr.lstrip s = String c t /\ PyStr.isspace c = false.
Proof.
  induction s as [|c s IH]; [by left |]. cbn [PyStr.lstrip].
  destruct (PyStr.isspace c) eqn:Ec; [done |]. right. eauto.
Qed.

Lemma strip_idemp s : PyStr.strip (PyStr.strip s) = PyStr.strip s.
Proof.
  unfold PyStr.strip.
  destruct (lstrip_head s) as [-> | (c & t & -> & Hc)]; [done |].
  by rewrite (lstrip_rstrip_head _ _ Hc), rstrip_idemp.
Qed.

(** ** The inference client *)

(** X3. [get_ollama_response] sends exactly one request whatever comes
    back, and a string it returns has no whitespace at either end. *)
Theorem get_ollama_response_stripped (text : json) (model : string)
    (reply : http_reply) :
  posts (snd (get_ollama_response text model reply)) = 1
  /\ forall s, fst (get_ollama_response text model reply) = Returned s ->
               PyStr.strip s = s.
Proof.
  unfold get_ollama_response.
  pose proof (posts_ollama_result reply) as Hp.
  destruct (ollama_result reply) as [r tr] eqn:Er. simpl in *. split.
  - by rewrite Hp.
  - intros s ->. unfold ollama_result in Er.
    destruct reply as [|status body]; [by injection Er as <- _ |].
    destruct (negb (is_success status)); [by injection Er as <- _ |].
    destruct body as [[| | | | |result]|]; try done.
    destruct (dict_get "response" (JStr "") result); try done.
    injection Er as <- _. apply strip_idemp.
Qed.

Lemma get_ollama_response_stripped_witness :
  fst (get_ollama_response (JStr "Need more funding") "llama3"
         (Response 200 (Some (JObj [("response", JStr "  Funding, Data ")]))))
  = Returned "Funding, Data".
Proof.
  destruct (get_ollama_response_stripped (JStr "Need more funding") "llama3"
              (Response 200 (Some (JObj [("response", JStr "  Funding, Data ")]))))
    as [_ H].
  specialize (H "Funding, Data" eq_refl). reflexivity.
Defined.

(** ** The item processor *)

Lemma dict_lookup_set_ne k k' v (d : dict) :
  k <> k' -> dict_lookup k (dict_set k' v d) = dict_lookup k d.
Proof.
  intros Hne. induction d as [|[k0 v0] d IH]; simpl.
  - destruct (String.eqb_spec k' k); [congruence | done].
  - destruct (String.eqb_spec k0 k') as [-> | Hk0]; simpl.
    + destruct (String.eqb_spec k' k); [congruence | done].
    + by rewrite IH.
Qed.

Lemma dict_set_keys k v (d : dict) :
  fst <$> dict_set k v d
  = match dict_lookup k d with
    | Some _ => fst <$> d
    | None => ((fst <$> d) ++ [k])%list
    end.
Proof.
  induction d as [|[k0 v0] d IH]; simpl; [done |].
  destruct (String.eqb_spec k0 k) as [-> | Hk0]; [done |].
  rewrite fmap_cons, IH. by destruct (dict_lookup k d).
Qed.

Lemma process_item_annotates item model cache_dir reply w r w' tr :
  process_item item model cache_dir reply w = (Returned r, w', tr) ->
  annotates item r.
Proof.
  unfold process_item.
  destruct (process_item_begin item model cache_dir w)
    as [[[o|text cache_file] w1] tr1] eqn:Eb.
  - intros [= -> _ _]. by apply (process_item_begin_annotates _ _ _ _ _ _ _ Eb).
  - destruct (process_item_resume item text cache_file reply w1)
      as [[o w2] tr2] eqn:Er.
    intros [= -> _ _].
    by apply (process_item_resume_annotates _ _ _ _ _ _ _ _ Er).
Qed.

(** X4. A record that [process_item] returns is the input record with its
    [categories] set: every other field has the value it had, and the fields
    keep their order, with [categories] added at the end when the input had
    none. *)
Theorem process_item_passthrough (item : dict) (model : string)
    (cache_dir : option string) (reply : http_reply) (w : world)
    (r : dict) (w' : world) (tr : list event) :
  process_item item model cache_dir reply w = (Returned r, w', tr) ->
  (forall k, k <> "categories" -> dict_lookup k r = dict_lookup k item)
  /\ is_Some (dict_lookup "categories" r)
  /\ fst <$> r
     = match dict_lookup "categories" item with
       | Some _ => fst <$> item
       | None => ((fst <$> item) ++ ["categories"])%list
       end.
Proof.
  intros H. destruct (process_item_annotates _ _ _ _ _ _ _ _ H) as [v ->].
  split; [| split].
  - intros k Hk. by apply dict_lookup_set_ne.
  - rewrite dict_lookup_set. by eexists.
  - apply dict_set_keys.
Qed.

Lemma process_item_passthrough_witness :
  dict_lookup "id"
    (dict_set "categories" (JList [JStr "Other"])
       [("id", JStr "7"); ("description", JStr "")])
  = Some (JStr "7").
Proof.
  destruct (process_item_passthrough
              [("id", JStr "7"); ("description", JStr "")] "llama3" None
              TransportError (World ∅ ∅)
              (dict_set "categories" (JList [JStr "Other"])
                 [("id", JStr "7"); ("description", JStr "")])
              (World ∅ ∅) [] eq_refl) as [H _].
  rewrite (H "id"); [reflexivity | discriminate].
Defined.

(** ** What every run of [process_batch] keeps *)

(** A property of the world and the trace that holds of no effect at all,
    composes along successive effects, and is kept by both parts of
    [process_item], is kept by [process_batch]. *)
Section BatchInvariant.

Context (model : string) (cache_dir : option string).
Context (J : dict -> json -> option string -> Prop).
Context (Q : world -> world -> list event -> Prop).

Hypothesis Q_refl : forall w, Q w w [].
Hypothesis Q_trans : forall w1 w2 w3 t1 t2,
  Q w1 w2 t1 -> Q w2 w3 t2 -> Q w1 w3 (t1 ++ t2).
Hypothesis begin_keeps : forall item w s w' tr,
  process_item_begin item model cache_dir w = (s, w', tr) ->
  Q w w' tr /\ slot_holds J (item, s).
Hypothesis resume_keeps : forall item text cache_file reply w o w' tr,
  J item text cache_file ->
  process_item_resume item text cache_file reply w = (o, w', tr) ->
  Q w w' tr.

Lemma begin_all_keeps batch w ss w' tr :
  begin_all batch model cache_dir w = (ss, w', tr) ->
  Q w w' tr /\ Forall (slot_holds J) ss.
Proof.
  revert w ss w' tr. induction batch as [|item batch IH]; intros w ss w' tr.
  - intros [= <- <- <-]. split; [apply Q_refl | constructor].
  - cbn [begin_all].
    destruct (process_item_begin item model cache_dir w) as [[s w1] tr1] eqn:Eb.
    destruct (begin_all batch model cache_dir w1) as [[ss1 w2] tr2] eqn:Er.
    intros [= <- <- <-].
    destruct (begin_keeps _ _ _ _ _ Eb) as [HQ1 Hs].
    destruct (IH _ _ _ _ Er) as [HQ2 Hss].
    split; [by apply (Q_trans _ w1) | by constructor].
Qed.

Lemma resume_all_keeps order reply ss w failure ss' w' tr :
  Forall (slot_holds J) ss ->
  resume_all order reply ss w = (failure, ss', w', tr) ->
  Q w w' tr.
Proof.
  revert ss w failure ss' w' tr.
  induction order as [|p rest IH]; intros ss w failure ss' w' tr Hss.
  - intros [= _ _ <- <-]. apply Q_refl.
  - cbn [resume_all].
    destruct (ss !! p) as [[item [o|text cache_file]]|] eqn:Hp;
      [by apply IH | | by apply IH].
    pose proof (Forall_lookup_1 _ _ _ _ Hss Hp) as HJ.
    unfold slot_holds in HJ. simpl in HJ.
    destruct (process_item_resume item text cache_file (reply p) w)
      as [[o w1] tr1] eqn:Er.
    pose proof (resume_keeps _ _ _ _ _ _ _ _ HJ Er) as HQ1.
    destruct o as [r|e].
    + destruct (resume_all rest reply _ w1) as [[[failure1 ss1] w2] tr2] eqn:E.
      intros [= _ _ <- <-]. apply (Q_trans _ w1); [done |].
      assert (Forall (slot_holds J) (<[p := (item, Done (Returned r))]> ss))
        as Hss' by (by apply Forall_insert).
      apply (IH _ _ _ _ _ _ Hss' E).
    + intros [= _ _ <- <-]. done.
Qed.

Lemma gather_keeps i batch reply latency w g w' tr :
  gather i batch model cache_dir reply latency w = (g, w', tr) -> Q w w' tr.
Proof.
  unfold gather.
  destruct (begin_all batch model cache_dir w) as [[ss w1] tr1] eqn:Eb.
  destruct (begin_all_keeps _ _ _ _ _ Eb) as [HQ1 Hss].
  destruct (first_raised ss); [by intros [= _ <- <-] |].
  destruct (resume_all _ _ ss w1) as [[[failure ss2] w2] tr2] eqn:Er.
  pose proof (resume_all_keeps _ _ _ _ _ _ _ _ Hss Er) as HQ2.
  assert (Q w w2 (tr1 ++ tr2)) as HQ by (by apply (Q_trans _ w1)).
  destruct failure; [by intros [= _ <- <-] |].
  destruct (mapM slot_result ss2); by intros [= _ <- <-].
Qed.

Lemma run_windows_keeps starts items n reply latency w out st w' tr :
  run_windows starts items n model cache_dir reply latency w
  = (out, st, w', tr) ->
  Q w w' tr.
Proof.
  revert w out st w' tr.
  induction starts as [|i rest IH]; intros w out st w' tr.
  - intros [= _ _ <- <-]. apply Q_refl.
  - cbn [run_windows].
    destruct (gather i _ model cache_dir reply latency w)
      as [[g w1] tr1] eqn:Eg.
    pose proof (gather_keeps _ _ _ _ _ _ _ _ Eg) as HQ1.
    destruct g as [rs|e|]; [| by intros [= _ _ <- <-] ..].
    destruct (run_windows rest items n model cache_dir reply latency w1)
      as [[[out1 st1] w2] tr2] eqn:Er.
    intros [= _ _ <- <-]. apply (Q_trans _ w1); [done |].
    by apply (IH _ _ _ _ _ Er).
Qed.

Lemma process_batch_keeps items batch_size reply latency w :
  let run :=
    process_batch items batch_size model cache_dir reply latency w in
  Q w (world_after run) (effects run).
Proof.
  unfold process_batch. destruct (py_range _ _) as [starts|e].
  - destruct (run_windows starts items _ model cache_dir reply latency w)
      as [[[out st] w'] tr] eqn:Er.
    by apply (run_windows_keeps _ _ _ _ _ _ _ _ _ _ Er).
  - apply Q_refl.
Qed.

End BatchInvariant.

Lemma prefix_app_app a b c : String.prefix (a ++ b) (a ++ (b ++ c)) = true.
Proof.
  induction a as [|x a IH]; simpl.
  - induction b as [|y b IHb]; simpl; [by destruct c |].
    by destruct (ascii_dec y y).
  - by destruct (ascii_dec x x).
Qed.

Lemma prefix_cache_path d text model :
  String.prefix (d ++ "/") (cache_path d text model) = true.
Proof. unfold cache_path. apply prefix_app_app. Qed.

Lemma ollama_result_no_files reply :
  Forall (fun ev => touches_files ev = false) (snd (ollama_result reply)).
Proof.
  destruct reply as [|status body]; simpl; [by repeat constructor |].
  destruct (is_success status); simpl; [| by repeat constructor].
  destruct body as [[| | | | |result]|]; try by constructor.
  destruct (dict_get "response" (JStr "") result); by constructor.
Qed.

(** X5. With the cache disabled a run of [process_batch] leaves the world
    as it found it and never goes to the file system: its only effects are
    inference requests and the console lines of their failures. *)
Theorem process_batch_without_cache (items : list dict) (batch_size : Z)
    (model : string) (reply : nat -> http_reply) (latency : nat -> nat)
    (w : world) :
  let run := process_batch items batch_size model None reply latency w in
  world_after run = w
  /\ Forall (fun ev => touches_files ev = false) (effects run).
Proof.
  apply (process_batch_keeps model None
           (fun _ _ cache_file => cache_file = None)
           (fun w w' tr =>
              w' = w /\ Forall (fun ev => touches_files ev = false) tr)).
  - intros w0. split; [done | constructor].
  - intros w1 w2 w3 t1 t2 [-> H1] [-> H2]. split; [done |].
    by apply Forall_app.
  - intros item w0 s w' tr. unfold process_item_begin.
    destruct (negb (truthy _)); intros [= <- <- <-].
    + split; [| done]. split; [done | constructor].
    + split; [| done]. split; [done | by repeat constructor].
  - intros item text cache_file r w0 o w' tr ->. unfold process_item_resume.
    pose proof (ollama_result_no_files r) as Hno.
    destruct (ollama_result r) as [[response|e] tr0]; by intros [= _ <- <-].
Qed.

(** X6. With the cache enabled a run of [process_batch] creates or replaces
    files under the cache directory only: every file whose path does not
    start with the cache directory and a slash is what it was. *)
Theorem process_batch_frame (items : list dict) (batch_size : Z)
    (model d : string) (reply : nat -> http_reply) (latency : nat -> nat)
    (w : world) (path : string) :
  String.prefix (d ++ "/") path = false ->
  files (world_after
           (process_batch items batch_size model (Some d) reply latency w))
    !! path
  = files w !! path.
Proof.
  intros Hpath.
  apply (process_batch_keeps model (Some d)
           (fun _ _ cache_file =>
              exists f, cache_file = Some f
                        /\ String.prefix (d ++ "/") f = true)
           (fun w w' tr => files w' !! path = files w !! path)).
  - done.
  - intros w1 w2 w3 t1 t2 H1 H2. by rewrite H2.
  - intros item w0 s w' tr. unfold process_item_begin.
    destruct (negb (truthy _)); [by intros [= <- <- <-] |].
    destruct (cache_read _ _) as [[v| |e] tr0]; intros [= <- <- <-];
      (split; [done |]); try done.
    unfold slot_holds. simpl. eexists. split; [done |].
    apply prefix_cache_path.
  - intros item text cache_file r w0 o w' tr (f & -> & Hf).
    unfold process_item_resume.
    destruct (ollama_result r) as [[response|e] tr0]; intros [= _ <- <-];
      [| done].
    simpl. apply lookup_insert_ne. intros ->. congruence.
Qed.

Lemma process_batch_frame_witness :
  files (world_after
           (process_batch example_items 2 "llama3" (Some "cache")
              example_reply (fun k => k)
              (World ∅ {[ "notes.txt" := NotJson ]})))
    !! "notes.txt"
  = Some NotJson.
Proof.
  rewrite (process_batch_frame example_items 2 "llama3" "cache").
  - reflexivity.
  - reflexivity.
Defined.

(** ** The inference requests of a run *)

Lemma with_text_app l1 l2 : with_text (l1 ++ l2) = with_text l1 + with_text l2.
Proof. unfold with_text. by rewrite filter_app, length_app. Qed.

Lemma with_text_cons item l :
  with_text (item :: l) = (if has_text item then 1 else 0) + with_text l.
Proof.
  unfold with_text. destruct (has_text item) eqn:E.
  - by rewrite filter_cons_True.
  - rewrite filter_cons_False; [done | congruence].
Qed.

Lemma with_text_length l : with_text l <= length l.
Proof. apply length_filter. Qed.

Lemma with_text_take k l : with_text (take k l) <= with_text l.
Proof. rewrite <- (take_drop k l) at 2. rewrite with_text_app. lia. Qed.

Lemma posts_process_item_begin item model cache_dir w s w' tr :
  process_item_begin item model cache_dir w = (s, w', tr) ->
  posts tr <= (if has_text item then 1 else 0)
  /\ (cache_dir = None -> posts tr = if has_text item then 1 else 0).
Proof.
  unfold process_item_begin, has_text, text_of.
  destruct (truthy _); simpl; [| by intros [= _ _ <-]].
  destruct cache_dir as [d|]; [| by intros [= _ _ <-]].
  pose proof (posts_cache_read (mkdir d w)
                (cache_path d (dict_get "description" (JStr "") item) model))
    as Hp.
  destruct (cache_read _ _) as [[v| |e] tr0]; simpl in Hp;
    intros [= _ _ <-]; (split; [| done]); cbn [posts is_post];
    rewrite ?posts_app, Hp; simpl; lia.
Qed.

Lemma posts_process_item_resume item text cache_file reply w o w' tr :
  process_item_resume item text cache_file reply w = (o, w', tr) ->
  posts tr = 0.
Proof.
  unfold process_item_resume.
  pose proof (posts_ollama_result reply) as Hp.
  destruct (ollama_result reply) as [[response|e] tr0]; simpl in Hp.
  - destruct cache_file as [f|]; simpl; intros [= _ _ <-]; [| done].
    by rewrite posts_app, Hp.
  - by intros [= _ _ <-].
Qed.

Lemma posts_begin_all batch model cache_dir w ss w' tr :
  begin_all batch model cache_dir w = (ss, w', tr) ->
  posts tr <= with_text batch
  /\ (cache_dir = None -> posts tr = with_text batch).
Proof.
  revert w ss w' tr. induction batch as [|item batch IH]; intros w ss w' tr.
  - by intros [= _ _ <-].
  - cbn [begin_all].
    destruct (process_item_begin item model cache_dir w) as [[s w1] tr1] eqn:Eb.
    destruct (begin_all batch model cache_dir w1) as [[ss1 w2] tr2] eqn:Er.
    intros [= _ _ <-].
    destruct (posts_process_item_begin _ _ _ _ _ _ _ Eb) as [H1 H1'].
    destruct (IH _ _ _ _ Er) as [H2 H2'].
    rewrite posts_app, with_text_cons. split; [lia |].
    intros Hc. rewrite (H1' Hc), (H2' Hc). done.
Qed.

Lemma posts_resume_all order reply ss w failure ss' w' tr :
  resume_all order reply ss w = (failure, ss', w', tr) -> posts tr = 0.
Proof.
  revert ss w failure ss' w' tr.
  induction order as [|p rest IH]; intros ss w failure ss' w' tr.
  - by intros [= _ _ _ <-].
  - cbn [resume_all].
    destruct (ss !! p) as [[item [o|text cache_file]]|] eqn:Hp;
      [apply IH | | apply IH].
    destruct (process_item_resume item text cache_file (reply p) w)
      as [[o w1] tr1] eqn:Er.
    pose proof (posts_process_item_resume _ _ _ _ _ _ _ _ Er) as H1.
    destruct o as [r|e]; [| by intros [= _ _ _ <-]].
    destruct (resume_all rest reply _ w1) as [[[failure1 ss1] w2] tr2] eqn:E.
    intros [= _ _ _ <-]. rewrite posts_app, H1. by apply (IH _ _ _ _ _ _ E).
Qed.

Lemma posts_gather i batch model cache_dir reply latency w g w' tr :
  gather i batch model cache_dir reply latency w = (g, w', tr) ->
  posts tr <= with_text batch
  /\ (cache_dir = None -> posts tr = with_text batch).
Proof.
  unfold gather.
  destruct (begin_all batch model cache_dir w) as [[ss w1] tr1] eqn:Eb.
  pose proof (posts_begin_all _ _ _ _ _ _ _ Eb) as H1.
  destruct (first_raised ss); [by intros [= _ _ <-] |].
  destruct (resume_all _ _ ss w1) as [[[failure ss2] w2] tr2] eqn:Er.
  pose proof (posts_resume_all _ _ _ _ _ _ _ _ Er) as H2.
  assert (posts (tr1 ++ tr2) = posts tr1) as Hp
    by (rewrite posts_app; lia).
  destruct failure; [intros [= _ _ <-]; by rewrite Hp |].
  destruct (mapM slot_result ss2); intros [= _ _ <-]; by rewrite Hp.
Qed.

Lemma posts_run_windows n m a items model cache_dir reply latency w out st w' tr :
  run_windows (map (fun k => k * n) (seq a m)) items n model cache_dir reply
    latency w = (out, st, w', tr) ->
  posts tr <= with_text (take (m * n) (drop (a * n) items))
  /\ (cache_dir = None -> st = Completed ->
      posts tr = with_text (take (m * n) (drop (a * n) items))).
Proof.
  revert a w out st w' tr. induction m as [|m IH]; intros a w out st w' tr.
  - by intros [= _ _ _ <-].
  - cbn [seq map run_windows].
    destruct (gather (a * n) _ model cache_dir reply latency w)
      as [[g w1] tr1] eqn:Eg.
    destruct (posts_gather _ _ _ _ _ _ _ _ _ _ Eg) as [H1 H1'].
    assert (take (S m * n) (drop (a * n) items)
            = (take n (drop (a * n) items)
               ++ take (m * n) (drop (S a * n) items))%list) as Hsplit.
    { change (S m * n) with (n + m * n).
      rewrite <- take_take_drop, drop_drop.
      by replace (a * n + n) with (S a * n) by lia. }
    rewrite Hsplit, with_text_app.
    destruct g as [rs|e|].
    + destruct (run_windows _ items n model cache_dir reply latency w1)
        as [[[out1 st1] w2] tr2] eqn:Er.
      intros [= _ <- _ <-]. destruct (IH _ _ _ _ _ _ Er) as [H2 H2'].
      rewrite posts_app. split; [lia |].
      intros Hc Hst. rewrite (H1' Hc), (H2' Hc Hst). done.
    + intros [= _ <- _ <-]. split; [lia | done].
    + intros [= _ <- _ <-]. split; [lia | done].
Qed.

(** X7. A run of [process_batch] sends at most one inference request for
    each record that has a text, and none for the others; with the cache
    disabled, a run that reaches its end has sent exactly one for each record
    that has a text. *)
Theorem process_batch_requests (items : list dict) (batch_size : Z)
    (model : string) (cache_dir : option string) (reply : nat -> http_reply)
    (latency : nat -> nat) (w : world) :
  let run :=
    process_batch items batch_size model cache_dir reply latency w in
  posts (effects run) <= with_text items
  /\ ((0 < batch_size)%Z -> cache_dir = None -> ending run = Completed ->
      posts (effects run) = with_text items).
Proof.
  unfold process_batch, py_range.
  destruct (Z.eqb_spec batch_size 0) as [-> | _].
  { simpl. split; [lia | intros; lia]. }
  destruct (Z.ltb_spec batch_size 0) as [Hneg | _].
  { simpl. split; [lia | intros; lia]. }
  set (n := Z.to_nat batch_size).
  destruct (run_windows _ items n model cache_dir reply latency w)
    as [[[out st] w'] tr] eqn:Er.
  destruct (posts_run_windows _ _ _ _ _ _ _ _ _ _ _ _ _ Er) as [H1 H2].
  change (drop (0 * n) items) with items in *.
  unfold effects, ending. simpl. split.
  - pose proof (with_text_take ((length items + n - 1) `div` n * n) items).
    lia.
  - intros Hpos Hc Hst. rewrite (H2 Hc Hst). f_equal. apply take_ge.
    assert (n <> 0) as Hn0 by lia.
    pose proof (Nat.div_mod_eq (length items + n - 1) n) as Hdiv.
    pose proof (Nat.mod_upper_bound (length items + n - 1) n Hn0) as Hmod.
    rewrite (Nat.mul_comm n) in Hdiv. clearbody n. lia.
Qed.

Lemma process_batch_requests_witness :
  posts (effects (process_batch example_items 1 "llama3" None example_reply
                    (fun k => k) (World ∅ ∅))) = 2.
Proof.
  destruct (process_batch_requests example_items 1 "llama3" None example_reply
              (fun k => k) (World ∅ ∅)) as [_ H].
  rewrite H; [reflexivity | lia | reflexivity | vm_compute; reflexivity].
Defined.

(** X8. The requests of one window: the [gather] over the window that
    starts at item [i] calls the inference client at most [batch_size] times,
    and at most once for each record of the window that has a text. *)
Theorem gather_request_bound (items : list dict) (i n : nat) (model : string)
    (cache_dir : option string) (reply : nat -> http_reply)
    (latency : nat -> nat) (w : world) :
  posts (snd (gather i (take n (drop i items)) model cache_dir reply latency w))
  <= with_text (take n (drop i items))
  /\ with_text (take n (drop i items)) <= n.
Proof.
  destruct (gather i _ model cache_dir reply latency w) as [[g w'] tr] eqn:Eg.
  destruct (posts_gather _ _ _ _ _ _ _ _ _ _ Eg) as [H _]. simpl.
  split; [done |].
  pose proof (with_text_length (take n (drop i items))) as Hl.
  rewrite length_take in Hl. lia.
Qed.

(** ** The summary *)

Lemma count_of_incr_same c cs :
  count_of (JStr c) (counts_incr (JStr c) cs) = (count_of (JStr c) cs + 1)%Z.
Proof.
  induction cs as [|[k n] cs IH]; simpl.
  - by rewrite String.eqb_refl.
  - destruct (key_eqb k (JStr c)) eqn:E; simpl; rewrite E; [done | apply IH].
Qed.

Lemma count_of_incr_other c c' cs :
  c <> c' ->
  count_of (JStr c) (counts_incr (JStr c') cs) = count_of (JStr c) cs.
Proof.
  intros Hne. induction cs as [|[k n] cs IH]; simpl.
  - destruct (String.eqb_spec c' c); [congruence | done].
  - destruct (key_eqb k (JStr c')) eqn:E; simpl; [| by rewrite IH].
    destruct k as [| | |s| |]; try done. simpl in E.
    apply String.eqb_eq in E as ->. simpl.
    destruct (String.eqb_spec c' c); [congruence | done].
Qed.

Lemma counts_total_incr k cs :
  counts_total (counts_incr k cs) = (counts_total cs + 1)%Z.
Proof.
  induction cs as [|[k' n] cs IH]; [done |]. cbn [counts_incr].
  destruct (key_eqb k' k).
  - change (counts_total ((k', (n + 1)%Z) :: cs))
      with ((n + 1) + counts_total cs)%Z.
    change (counts_total ((k', n) :: cs)) with (n + counts_total cs)%Z. lia.
  - change (counts_total ((k', n) :: counts_incr k cs))
      with (n + counts_total (counts_incr k cs))%Z.
    change (counts_total ((k', n) :: cs)) with (n + counts_total cs)%Z.
    rewrite IH. lia.
Qed.

Lemma counts_incr_keys (P : json -> Prop) k cs :
  P k -> Forall (fun kn => P (fst kn)) cs ->
  Forall (fun kn => P (fst kn)) (counts_incr k cs).
Proof.
  intros Hk. induction 1 as [|[k' n] cs Hk' Hcs IH]; simpl.
  - by repeat constructor.
  - destruct (key_eqb k' k); by constructor.
Qed.

Lemma count_each_strings ls cs :
  count_each (map JStr ls) cs
  = Returned (foldl (fun cs l => counts_incr (JStr l) cs) cs ls).
Proof. revert cs. induction ls as [|l ls IH]; intros cs; simpl; [done | apply IH]. Qed.

Lemma count_items_strings results lss cs :
  Forall2 string_categories results lss ->
  count_items results cs
  = Returned (foldl (fun cs l => counts_incr (JStr l) cs) cs (concat lss)).
Proof.
  intros H. revert cs. induction H as [|r ls results lss Hr _ IH]; intros cs.
  - done.
  - cbn [count_items concat]. unfold string_categories in Hr. rewrite Hr.
    cbn [py_iter]. rewrite count_each_strings, foldl_app. apply IH.
Qed.

Lemma tally_strings ls cs :
  let cs' := foldl (fun cs l => counts_incr (JStr l) cs) cs ls in
  (forall c, count_of (JStr c) cs'
             = (count_of (JStr c) cs + occurrences c ls)%Z)
  /\ counts_total cs' = (counts_total cs + Z.of_nat (length ls))%Z
  /\ forall P : json -> Prop,
       Forall (fun l => P (JStr l)) ls ->
       Forall (fun kn => P (fst kn)) cs ->
       Forall (fun kn => P (fst kn)) cs'.
Proof.
  revert cs. induction ls as [|l ls IH]; intros cs; cbn [foldl].
  - split; [intros c; simpl; lia |]. split; [simpl; lia | done].
  - destruct (IH (counts_incr (JStr l) cs)) as (Hc & Ht & Hk).
    split; [| split].
    + intros c. rewrite Hc. cbn [occurrences].
      destruct (String.eqb_spec l c) as [-> | Hne].
      * rewrite count_of_incr_same. lia.
      * rewrite count_of_incr_other by congruence. lia.
    + rewrite Ht, counts_total_incr. cbn [length]. lia.
    + intros P Hls Hcs. apply Forall_cons in Hls as [Hl Hls].
      apply Hk; [done |]. by apply counts_incr_keys.
Qed.

(** X9. The category counts of the summary: over records whose
    [categories] are lists of strings, the counting does not fail; the count
    of each label is the number of times it occurs in the records, a record
    that has a label twice counting twice; the counts add up to the number of
    labels of all records; and nothing is counted but labels that occur. *)
Theorem category_counts_tally (results : list dict) (lss : list (list string)) :
  Forall2 string_categories results lss ->
  exists cs,
    category_counts results = Returned cs
    /\ (forall c, count_of (JStr c) cs = occurrences c (concat lss))
    /\ counts_total cs = Z.of_nat (length (concat lss))
    /\ Forall (fun kn => exists c, fst kn = JStr c /\ c ∈ concat lss) cs.
Proof.
  intros H. eexists. split; [by apply count_items_strings |].
  destruct (tally_strings (concat lss) []) as (Hc & Ht & Hk).
  split; [| split].
  - intros c. by rewrite Hc.
  - by rewrite Ht.
  - apply (Hk (fun k => exists c, k = JStr c /\ c ∈ concat lss)); [| constructor].
    apply Forall_forall. intros l Hl. eauto.
Qed.

Lemma category_counts_tally_witness :
  category_counts
    [ [("id", JStr "1"); ("categories", JList [JStr "Funding"; JStr "Data"])];
      [("id", JStr "2"); ("categories", JList [JStr "Data"])] ]
  = Returned [(JStr "Funding", 1%Z); (JStr "Data", 2%Z)].
Proof.
  destruct (category_counts_tally
    [ [("id", JStr "1"); ("categories", JList [JStr "Funding"; JStr "Data"])];
      [("id", JStr "2"); ("categories", JList [JStr "Data"])] ]
    [["Funding"; "Data"]; ["Data"]]) as (cs & H & _).
  - by repeat constructor.
  - reflexivity.
Defined.

(** ** The categories of the records of a run *)

Section Labelled.

Context (model : string) (cache_dir : option string).







End Labelled.




(** ** [categorize_file], from the items to the summary *)






(** X12. A batch size that is not positive: with zero, [categorize_file]
    fails with the [ValueError] of [range]; with a negative one it returns at
    once an output with no record at all and [total_items] zero, whatever the
    items, having done nothing. *)
Theorem categorize_items_nonpositive (items : list dict) (model : string)
    (batch_size : Z) (use_cache : bool) (home : string)
    (reply : nat -> http_reply) (latency : nat -> nat) (w : world) :
  (batch_size <= 0)%Z ->
  categorize_items items model batch_size use_cache home reply latency w
  = (if (batch_size =? 0)%Z then Aborted ValueError
     else Finished (Output [] 0 []), w, []).
Proof.
  intros Hle. unfold categorize_items, process_batch, py_range.
  destruct (Z.eqb_spec batch_size 0) as [-> | Hne]; [done |].
  destruct (Z.ltb_spec batch_size 0) as [_ | ?]; [done | lia].
Qed.

Lemma categorize_items_nonpositive_witness :
  categorize_items example_items "llama3" (-1) true "/home/u" example_reply
    (fun k => k) (World ∅ ∅)
  = (Finished (Output [] 0 []), World ∅ ∅, []).
Proof.
  apply (categorize_items_nonpositive example_items "llama3" (-1) true).
  lia.
Defined.

(** * Properties of [excel_converter.py] *)

(** ** The docstring examples *)

Example question_text_doc1 :
  extract_question_text "Q5: What further information would help you?"
  = "What further information would help you?".
Proof. reflexivity. Qed.

Example question_text_doc2 :
  extract_question_text "Q5.What further information would help you?"
  = "What further information would help you?".
Proof. reflexivity. Qed.

Example question_text_doc3 :
  extract_question_text "What further information would help you?"
  = "What further information would help you?".
Proof. reflexivity. Qed.

Example question_number_doc :
  extract_question_number "Q5: What further information would help you?" = Some 5%Z
  /\ extract_question_number "5. What is your name?" = Some 5%Z
  /\ extract_question_number "What is your name?" = None.
Proof. repeat split; reflexivity. Qed.

Example clean_response_doc :
  clean_response (CellStr "  Better data  ") = Some "Better data"
  /\ clean_response (CellStr "N/A") = None
  /\ clean_response (CellStr "NA") = None
  /\ clean_response CellNA = None
  /\ clean_response (CellInt 123) = Some "123".
Proof. repeat split; vm_compute; reflexivity. Qed.

Example convert_sheet_doc :
  let result :=
    convert_sheet_to_json
      [ ("Q1: Favorite color?", [CellStr "Blue"; CellStr "Red"; CellNA]);
        ("Q2: Age?", [CellInt 42; CellInt 38; CellInt 25]) ] in
  length result = 2
  /\ (question <$> result) = ["Favorite color?"; "Age?"]
  /\ (length ∘ responses <$> result) = [2; 3]
  /\ (question_id <$> result) = ["question1"; "question2"].
Proof. vm_compute. repeat split; reflexivity. Qed.

(** ** The column headers *)

Lemma span_app p a b :
  all_of p a = true -> head_not p b = true -> span p (a ++ b) = (a, b).
Proof.
  intros Ha Hb. induction a as [|c a IH].
  - destruct b as [|c b]; [done |]. simpl in Hb.
    apply negb_true_iff in Hb. simpl. by rewrite Hb.
  - cbn [all_of] in Ha. apply andb_true_iff in Ha as [Hc Ha].
    change (String c a ++ b) with (String c (a ++ b)).
    cbn [span]. by rewrite Hc, (IH Ha).
Qed.

Lemma span_head_not p s : head_not p s = true -> span p s = (EmptyString, s).
Proof.
  destruct s as [|c s]; simpl; [done |].
  intros H. apply negb_true_iff in H. by rewrite H.
Qed.

Lemma sep_not_digit c : is_sep c = true -> is_digit c = false.
Proof.
  destruct c as [[] [] [] [] [] [] [] []]; vm_compute; congruence.
Qed.

Lemma space_is_sep c : PyStr.isspace c = true -> is_sep c = true.
Proof. intros H. unfold is_sep. by rewrite H. Qed.

Lemma lstrip_head_not s :
  head_not PyStr.isspace s = true -> PyStr.lstrip s = s.
Proof.
  destruct s as [|c s]; simpl; [done |].
  intros H. apply negb_true_iff in H. by rewrite H.
Qed.

Lemma head_not_sep_space s :
  head_not is_sep s = true -> head_not PyStr.isspace s = true.
Proof.
  destruct s as [|c s]; simpl; [done |].
  intros H. apply negb_true_iff in H. apply negb_true_iff.
  destruct (PyStr.isspace c) eqn:E; [| done].
  by rewrite (space_is_sep _ E) in H.
Qed.

Lemma head_not_digit_seps seps q :
  seps <> EmptyString -> all_of is_sep seps = true ->
  head_not is_digit (seps ++ q) = true.
Proof.
  destruct seps as [|c seps]; [done |]. simpl. intros _ H.
  apply andb_true_iff in H as [Hc _]. by rewrite (sep_not_digit _ Hc).
Qed.

(** A header that is a number, separators and a rest matches the pattern
    without [Q], and with [Q] in front the pattern with [Q]. *)
Lemma match_number_digits digits seps q :
  digits <> EmptyString -> all_of is_digit digits = true ->
  seps <> EmptyString -> all_of is_sep seps = true ->
  head_not is_sep q = true ->
  match_number false (digits ++ seps ++ q) = Some (digits, q).
Proof.
  intros Hd Hda Hs Hsa Hq. unfold match_number.
  rewrite (span_app _ _ _ Hda (head_not_digit_seps _ _ Hs Hsa)).
  destruct (String.eqb_spec digits ""); [done |].
  rewrite (span_app _ _ _ Hsa Hq).
  by destruct (String.eqb_spec seps "").
Qed.

Lemma match_number_Q s : match_number true (String "Q" s) = match_number false s.
Proof. reflexivity. Qed.

Lemma match_number_head c s :
  match_number true (String c s)
  = if Ascii.eqb c "Q" then match_number false s else None.
Proof. unfold match_number. by destruct (Ascii.eqb c "Q"). Qed.

Lemma match_number_no_digit q s :
  head_not is_digit s = true -> head_not (Ascii.eqb "Q") s = true ->
  match_number q s = None.
Proof.
  intros Hd HQ. destruct q.
  - destruct s as [|c s]; [done |]. cbn [head_not] in HQ.
    apply negb_true_iff in HQ.
    by rewrite match_number_head, Ascii.eqb_sym, HQ.
  - unfold match_number. by rewrite (span_head_not _ _ Hd).
Qed.

Lemma match_number_digit_head digits s :
  digits <> EmptyString -> all_of is_digit digits = true ->
  match_number true (digits ++ s) = None.
Proof.
  destruct digits as [|c digits]; [done |]. cbn [all_of]. intros _ H.
  apply andb_true_iff in H as [Hc _].
  change (String c digits ++ s) with (String c (digits ++ s)).
  rewrite match_number_head.
  destruct (Ascii.eqb_spec c "Q") as [-> |]; [discriminate | done].
Qed.

(** X13. The question text of a header has no whitespace at either end,
    and when [extract_question_number] finds no number in the header it is
    the header itself, stripped. *)
Theorem extract_question_text_plain (column_name : string) :
  PyStr.strip (extract_question_text column_name)
  = extract_question_text column_name
  /\ (extract_question_number column_name = None ->
      extract_question_text column_name = PyStr.strip column_name).
Proof.
  split; [apply strip_idemp |].
  unfold extract_question_number, extract_question_text, sub_number.
  destruct (match_number true column_name) as [[d r]|]; [done |].
  by destruct (match_number false column_name) as [[d r]|].
Qed.

Lemma extract_question_text_plain_witness :
  extract_question_text "  Any other comments? "
  = PyStr.strip "  Any other comments? ".
Proof.
  apply (extract_question_text_plain "  Any other comments? "). reflexivity.
Defined.

(** X14. A numbered header. For a header made of an optional [Q], a number
    of at most 4300 digits, one or more separators (whitespace, hyphen, full
    stop, colon) and a question that does not begin with a separator, the
    question number is the value of the number; and when the question does
    not begin with a digit either, the question text is the question,
    stripped. *)
Theorem numbered_header (digits seps q : string) :
  digits <> EmptyString -> all_of is_digit digits = true ->
  String.length digits <= 4300 ->
  seps <> EmptyString -> all_of is_sep seps = true ->
  head_not is_sep q = true ->
  extract_question_number ("Q" ++ digits ++ seps ++ q)
  = Some (int_of_digits digits)
  /\ extract_question_number (digits ++ seps ++ q)
     = Some (int_of_digits digits)
  /\ (head_not is_digit q = true ->
      extract_question_text ("Q" ++ digits ++ seps ++ q) = PyStr.strip q
      /\ extract_question_text (digits ++ seps ++ q) = PyStr.strip q).
Proof.
  intros Hd Hda _ Hs Hsa Hq.
  pose proof (match_number_digits _ _ _ Hd Hda Hs Hsa Hq) as Hm.
  pose proof (lstrip_head_not _ (head_not_sep_space _ Hq)) as Hl.
  split; [| split].
  - unfold extract_question_number.
    change ("Q" ++ digits ++ seps ++ q) with (String "Q" (digits ++ seps ++ q)).
    by rewrite match_number_Q, Hm.
  - unfold extract_question_number.
    by rewrite (match_number_digit_head _ _ Hd Hda), Hm.
  - intros Hnd.
    assert (sub_number false q = q) as Hq2.
    { unfold sub_number, match_number. by rewrite (span_head_not _ _ Hnd). }
    unfold extract_question_text. split.
    + change ("Q" ++ digits ++ seps ++ q)
        with (String "Q" (digits ++ seps ++ q)).
      unfold sub_number at 2. by rewrite match_number_Q, Hm, Hl, Hq2.
    + unfold sub_number at 2.
      rewrite (match_number_digit_head _ _ Hd Hda).
      unfold sub_number. by rewrite Hm, Hl.
Qed.

Lemma numbered_header_witness :
  extract_question_number "Q12 - What would help?" = Some 12%Z
  /\ extract_question_text "Q12 - What would help?" = "What would help?".
Proof.
  destruct (numbered_header "12" " - " "What would help?")
    as (Hn & _ & Ht);
    [discriminate | reflexivity | simpl; lia | discriminate | reflexivity
    | reflexivity |].
  split; [exact Hn |]. destruct (Ht eq_refl) as [Ht1 _]. exact Ht1.
Defined.

(** X15. Both patterns are applied, one after the other: when the question
    of a header [Q<number><separators><question>] itself begins with a number
    and separators, that number is removed from the question text as well. *)
Theorem numbered_question_loses_number (digits seps digits2 seps2 q : string) :
  digits <> EmptyString -> all_of is_digit digits = true ->
  seps <> EmptyString -> all_of is_sep seps = true ->
  digits2 <> EmptyString -> all_of is_digit digits2 = true ->
  seps2 <> EmptyString -> all_of is_sep seps2 = true ->
  head_not is_sep q = true ->
  extract_question_text ("Q" ++ digits ++ seps ++ digits2 ++ seps2 ++ q)
  = PyStr.strip q.
Proof.
  intros Hd Hda Hs Hsa Hd2 Hda2 Hs2 Hsa2 Hq.
  assert (head_not is_sep (digits2 ++ seps2 ++ q) = true) as Hq1.
  { destruct digits2 as [|c d2]; [done |]. simpl in *.
    apply andb_true_iff in Hda2 as [Hc _]. apply negb_true_iff.
    destruct (is_sep c) eqn:E; [| done].
    by rewrite (sep_not_digit _ E) in Hc. }
  pose proof (match_number_digits _ _ _ Hd Hda Hs Hsa Hq1) as Hm1.
  pose proof (match_number_digits _ _ _ Hd2 Hda2 Hs2 Hsa2 Hq) as Hm2.
  unfold extract_question_text.
  change ("Q" ++ digits ++ seps ++ digits2 ++ seps2 ++ q)
    with (String "Q" (digits ++ seps ++ digits2 ++ seps2 ++ q)).
  unfold sub_number at 2. rewrite match_number_Q, Hm1.
  rewrite (lstrip_head_not _ (head_not_sep_space _ Hq1)).
  unfold sub_number. rewrite Hm2.
  by rewrite (lstrip_head_not _ (head_not_sep_space _ Hq)).
Qed.

Lemma numbered_question_loses_number_witness :
  extract_question_text "Q5: 2020 plans" = "plans".
Proof.
  apply (numbered_question_loses_number "5" ": " "2020" " " "plans");
    first [discriminate | reflexivity].
Defined.

(** ** The cells *)

(** X16. What [clean_response] returns is clean: a string with no
    whitespace at either end, not empty, not one of the non-responses in any
    case; and cleaning it again changes nothing. *)
Theorem clean_response_clean (text : cell) (s : string) :
  clean_response text = Some s ->
  PyStr.strip s = s
  /\ s <> ""
  /\ (PyStr.lower s ∉ non_responses)
  /\ clean_response (CellStr s) = Some s.
Proof.
  assert (forall t, (if bool_decide (PyStr.lower (PyStr.strip t) ∈ non_responses)
                     then None else Some (PyStr.strip t)) = Some s ->
            PyStr.strip s = s /\ s <> "" /\ (PyStr.lower s ∉ non_responses)
            /\ clean_response (CellStr s) = Some s) as Hgen.
  { intros t. destruct (bool_decide _) eqn:E; [done |]. intros [= <-].
    apply bool_decide_eq_false in E.
    split; [apply strip_idemp |]. split; [| split; [done |]].
    - intros Hs. apply E. rewrite Hs. by repeat constructor.
    - unfold clean_response, cell_str. rewrite strip_idemp.
      by rewrite bool_decide_eq_false_2. }
  destruct text as [|t|n|b]; [done | apply Hgen ..].
Qed.

Lemma clean_response_clean_witness :
  clean_response (CellStr "Better data") = Some "Better data".
Proof.
  by destruct (clean_response_clean (CellStr "  Better data  ") "Better data")
    as (_ & _ & _ & H).
Defined.

(** ** The sheets *)

Lemma clean_response_nonempty text s : clean_response text = Some s -> s <> "".
Proof.
  unfold clean_response. intros H Hs. subst s.
  assert (forall t, (if bool_decide (PyStr.lower (PyStr.strip t) ∈ non_responses)
                     then None else Some (PyStr.strip t)) <> Some "") as Hgen.
  { intros t Ht. case_bool_decide as E; [discriminate |].
    injection Ht as Ht. apply E. rewrite Ht. by repeat constructor. }
  destruct text as [|t|n|b]; [done | by apply Hgen in H ..].
Qed.

Lemma gather_responses_rows idx values r :
  r ∈ gather_responses idx values ->
  exists row value,
    values !! row = Some value
    /\ clean_response value = Some (resp_text r)
    /\ resp_id r = NilZero.string_of_int (Z.to_int (Z.of_nat (idx + row))).
Proof.
  revert idx. induction values as [|value values IH]; intros idx; simpl.
  - by intros H%elem_of_nil.
  - assert (r ∈ gather_responses (S idx) values ->
            exists row value0,
              (value :: values) !! row = Some value0
              /\ clean_response value0 = Some (resp_text r)
              /\ resp_id r
                 = NilZero.string_of_int (Z.to_int (Z.of_nat (idx + row))))
      as Hrest.
    { intros H. destruct (IH _ H) as (row & v & Hv & Hc & Hid).
      exists (S row), v. split; [done |]. split; [done |].
      by rewrite Nat.add_succ_r. }
    destruct (clean_response value) as [cleaned|] eqn:Ec; [| done].
    intros [-> | H]%elem_of_cons; [| by apply Hrest].
    exists 0, value. simpl. by rewrite Nat.add_0_r.
Qed.

Lemma convert_columns_spec pos df col :
  col ∈ convert_columns pos df ->
  exists i column values,
    df !! i = Some (column, values)
    /\ question col = extract_question_text column
    /\ responses col = gather_responses 0 values
    /\ responses col <> []
    /\ question_id col
       = "question"
         ++ NilZero.string_of_int
              (Z.to_int (default (Z.of_nat (pos + i) + 1)%Z
                           (extract_question_number column))).
Proof.
  revert pos. induction df as [|[column values] df IH]; intros pos.
  - by intros H%elem_of_nil.
  - cbn [convert_columns].
    assert (col ∈ convert_columns (S pos) df ->
            exists i column0 values0,
              ((column, values) :: df) !! i = Some (column0, values0)
              /\ question col = extract_question_text column0
              /\ responses col = gather_responses 0 values0
              /\ responses col <> []
              /\ question_id col
                 = "question"
                   ++ NilZero.string_of_int
                        (Z.to_int (default (Z.of_nat (pos + i) + 1)%Z
                                     (extract_question_number column0))))
      as Hrest.
    { intros H. destruct (IH _ H) as (i & c & v & Hi & Hq & Hr & Hne & Hid).
      exists (S i), c, v. split; [done |]. repeat (split; [done |]).
      by rewrite Nat.add_succ_r. }
    destruct (gather_responses 0 values) as [|r rs] eqn:Er; [done |].
    intros [-> | H]%elem_of_cons; [| by apply Hrest].
    exists 0, column, values. simpl. rewrite Er, Nat.add_0_r.
    repeat (split; [done |]).
    by destruct (extract_question_number column).
Qed.

Lemma length_convert_columns pos df :
  length (convert_columns pos df) <= length df.
Proof.
  revert pos. induction df as [|[column values] df IH]; intros pos; simpl;
    [done |].
  specialize (IH (S pos)).
  destruct (gather_responses 0 values); simpl; lia.
Qed.

(** X17. What [convert_sheet_to_json] keeps of a sheet. Every column of the
    output comes from a column of the frame, has the question text of its
    header and at least one response; every response has as its id the
    number of the row of the cell it comes from and as its text that cell
    cleaned, which is not empty; and the output has no more columns than the
    frame. *)
Theorem convert_sheet_responses (df : frame) (col : column_data) :
  col ∈ convert_sheet_to_json df ->
  (exists column values,
     (column, values) ∈ df
     /\ question col = extract_question_text column
     /\ responses col <> []
     /\ forall r, r ∈ responses col ->
          exists row value,
            values !! row = Some value
            /\ clean_response value = Some (resp_text r)
            /\ resp_id r = NilZero.string_of_int (Z.to_int (Z.of_nat row))
            /\ resp_text r <> "")
  /\ length (convert_sheet_to_json df) <= length df.
Proof.
  intros Hcol. split; [| apply length_convert_columns].
  destruct (convert_columns_spec _ _ _ Hcol)
    as (i & column & values & Hi & Hq & Hr & Hne & _).
  exists column, values. split; [by eapply list_elem_of_lookup_2 |].
  split; [done |]. split; [done |].
  intros r Hin. rewrite Hr in Hin.
  destruct (gather_responses_rows _ _ _ Hin) as (row & value & Hv & Hc & Hid).
  exists row, value. repeat (split; [done |]).
  by apply (clean_response_nonempty _ _ Hc).
Qed.

Lemma convert_sheet_responses_witness :
  exists column values,
    (column, values)
      ∈ [ ("Q1: Favorite color?", [CellStr "Blue"; CellNA; CellStr " Red "]) ]
    /\ extract_question_text column = "Favorite color?".
Proof.
  destruct (convert_sheet_responses
              [ ("Q1: Favorite color?", [CellStr "Blue"; CellNA; CellStr " Red "]) ]
              (ColumnData "Favorite color?"
                 [Response_ "0" "Blue"; Response_ "2" "Red"] "question1"))
    as [(column & values & Hin & Hq & _) _].
  - vm_compute. apply list_elem_of_here.
  - exists column, values. split; [exact Hin |]. symmetry. exact Hq.
Defined.

(** X18. The question ids of a sheet need not be distinct: a header without
    a number gets the id of its position, which a numbered header elsewhere
    can have too. In a sheet of two columns with responses, the first
    numbered 2 and the second without a number, both get the id
    [question2]. *)
Theorem question_id_not_unique (c1 c2 : string) (v1 v2 : list cell) :
  extract_question_number c1 = Some 2%Z ->
  extract_question_number c2 = None ->
  gather_responses 0 v1 <> [] ->
  gather_responses 0 v2 <> [] ->
  question_id <$> convert_sheet_to_json [(c1, v1); (c2, v2)]
  = ["question2"; "question2"].
Proof.
  intros H1 H2 Hr1 Hr2. unfold convert_sheet_to_json. cbn [convert_columns].
  rewrite H1, H2.
  destruct (gather_responses 0 v1) as [|r1 rs1]; [done |].
  destruct (gather_responses 0 v2) as [|r2 rs2]; [done |].
  reflexivity.
Qed.

Lemma question_id_not_unique_witness :
  question_id
    <$> convert_sheet_to_json
          [ ("Q2: Which service?", [CellStr "Library"]);
            ("Any other comments?", [CellStr "More staff"]) ]
  = ["question2"; "question2"].
Proof.
  apply (question_id_not_unique "Q2: Which service?" "Any other comments?");
    first [reflexivity | discriminate].
Defined.

(** * Properties of [integration.py] *)

Lemma with_text_all items :
  Forall (fun item => has_text item = true) items ->
  with_text items = length items.
Proof.
  induction 1 as [|item items Hi _ IH]; [done |].
  rewrite with_text_cons, Hi, IH. done.
Qed.

(** X19. The items built from a converted sheet. For every column that
    [convert_sheet_to_json] returns, the items handed to the categorizer are
    not none, one for each response, and each has a non-empty description:
    the check for an empty list never skips such a column and [process_item]
    never takes its empty-text exit on such an item. *)
Theorem converted_items_have_text (df : frame) (col : column_data) :
  col ∈ convert_sheet_to_json df ->
  let items := items_to_categorize (responses col) in
  items <> []
  /\ length items = length (responses col)
  /\ Forall (fun item => has_text item = true) items
  /\ with_text items = length items.
Proof.
  intros Hcol items. subst items.
  destruct (convert_columns_spec _ _ _ Hcol)
    as (i & column & values & Hi & Hq & Hr & Hne & _).
  assert (Forall (fun item => has_text item = true)
            (items_to_categorize (responses col))) as Hall.
  { unfold items_to_categorize. apply Forall_forall. intros item Hitem.
    apply list_elem_of_In, in_map_iff in Hitem as (r & <- & Hin).
    apply list_elem_of_In in Hin. rewrite Hr in Hin.
    destruct (gather_responses_rows _ _ _ Hin) as (row & value & _ & Hc & _).
    pose proof (clean_response_nonempty _ _ Hc) as Hnonempty.
    unfold has_text, text_of, dict_get. simpl.
    destruct (String.eqb_spec (resp_text r) ""); done. }
  split; [| split; [| split; [done | by apply with_text_all]]].
  - unfold items_to_categorize. by destruct (responses col).
  - unfold items_to_categorize. apply length_map.
Qed.

Lemma converted_items_have_text_witness :
  with_text
    (items_to_categorize [Response_ "0" "Blue"; Response_ "2" "Red"]) = 2.
Proof.
  destruct (converted_items_have_text
              [ ("Q1: Favorite color?", [CellStr "Blue"; CellNA; CellStr " Red "]) ]
              (ColumnData "Favorite color?"
                 [Response_ "0" "Blue"; Response_ "2" "Red"] "question1"))
    as (_ & _ & _ & H).
  - vm_compute. apply list_elem_of_here.
  - exact H.
Defined.

(** * The names of the output files *)

Lemma length_map_chars f s : String.length (map_chars f s) = String.length s.
Proof. induction s as [|c s IH]; simpl; [done | by rewrite IH]. Qed.

Lemma all_of_map_chars (p : ascii -> bool) f s :
  (forall c, p (f c) = true) -> all_of p (map_chars f s) = true.
Proof. intros H. induction s as [|c s IH]; simpl; [done | by rewrite H, IH]. Qed.

Lemma all_of_filter_chars p s : all_of p (filter_chars p s) = true.
Proof.
  induction s as [|c s IH]; simpl; [done |].
  destruct (p c) eqn:E; simpl; [by rewrite E, IH | done].
Qed.

Lemma length_filter_chars p s :
  String.length (filter_chars p s) <= String.length s.
Proof.
  induction s as [|c s IH]; simpl; [done |]. destruct (p c); simpl; lia.
Qed.

Lemma length_substring_le n s : String.length (String.substring 0 n s) <= n.
Proof.
  revert s. induction n as [|n IH]; intros [|c s]; simpl; try lia.
  specialize (IH s). lia.
Qed.

Lemma all_of_no_char (p : ascii -> bool) c s :
  p c = false -> all_of p s = true -> PyRepr.mem_char c s = false.
Proof.
  intros Hc. induction s as [|x s IH]; simpl; [done |].
  intros H. apply andb_true_iff in H as [Hx Hs]. rewrite (IH Hs), orb_false_r.
  apply Ascii.eqb_neq. intros ->. congruence.
Qed.

(** X20. The file name that [process_excel_file] makes of a sheet name has
    the length of the sheet name and no character other than word
    characters, hyphens, underscores and full stops, so no slash and no
    backslash; a name that is already so is kept as it is. *)
Theorem sheet_safe_name_safe (sheet_name : string) :
  let ok c :=
    is_word c || Ascii.eqb c "-" || Ascii.eqb c "_" || Ascii.eqb c "." in
  String.length (sheet_safe_name sheet_name) = String.length sheet_name
  /\ all_of ok (sheet_safe_name sheet_name) = true
  /\ PyRepr.mem_char "/" (sheet_safe_name sheet_name) = false
  /\ PyRepr.mem_char (ascii_of_nat 92) (sheet_safe_name sheet_name) = false
  /\ (all_of ok sheet_name = true -> sheet_safe_name sheet_name = sheet_name).
Proof.
  intros ok.
  assert (all_of ok (sheet_safe_name sheet_name) = true) as Hall.
  { apply all_of_map_chars. intros c. fold (ok c). by destruct (ok c) eqn:E. }
  split; [apply length_map_chars |]. split; [done |].
  split; [by apply (all_of_no_char ok) |].
  split; [by apply (all_of_no_char ok) |].
  unfold sheet_safe_name. induction sheet_name as [|c s IH]; [done |].
  cbn [all_of map_chars]. intros H. apply andb_true_iff in H as [Hc Hs].
  fold (ok c). rewrite Hc, IH; [done | | done].
  apply all_of_map_chars. intros x. fold (ok x). by destruct (ok x) eqn:E.
Qed.

Lemma sheet_safe_name_safe_witness :
  sheet_safe_name "Sheet-1_v2.final" = "Sheet-1_v2.final".
Proof.
  destruct (sheet_safe_name_safe "Sheet-1_v2.final") as (_ & _ & _ & _ & H).
  apply H. reflexivity.
Defined.

(** X21. The part of an output file name that
    [process_excel_and_categorize] makes of a question has at most 30
    characters, all of them letters, digits, underscores or hyphens: no
    space, no full stop, no slash. *)
Theorem question_safe_name_safe (q : string) :
  let ok c := isalnum c || Ascii.eqb c "_" || Ascii.eqb c "-" in
  String.length (question_safe_name q) <= 30
  /\ all_of ok (question_safe_name q) = true
  /\ PyRepr.mem_char " " (question_safe_name q) = false
  /\ PyRepr.mem_char "." (question_safe_name q) = false
  /\ PyRepr.mem_char "/" (question_safe_name q) = false.
Proof.
  intros ok.
  assert (all_of ok (question_safe_name q) = true) as Hall
    by apply all_of_filter_chars.
  split.
  - unfold question_safe_name.
    pose proof (length_filter_chars ok
                  (map_chars (fun c => if Ascii.eqb c " " then "_"%char else c)
                     (String.substring 0 30 q))) as H1.
    rewrite length_map_chars in H1.
    pose proof (length_substring_le 30 q). fold ok. lia.
  - split; [done |]. repeat split; by apply (all_of_no_char ok).
Qed.

(** * The cache within a window *)

Lemma posts_gather_begin i batch model cache_dir reply latency w :
  posts (snd (gather i batch model cache_dir reply latency w))
  = posts (snd (begin_all batch model cache_dir w)).
Proof.
  unfold gather.
  destruct (begin_all batch model cache_dir w) as [[ss w1] tr1].
  destruct (first_raised ss); [done |].
  destruct (resume_all _ _ ss w1) as [[[failure ss2] w2] tr2] eqn:Er.
  pose proof (posts_resume_all _ _ _ _ _ _ _ _ Er) as H2.
  destruct failure; [simpl; rewrite posts_app; lia |].
  destruct (mapM slot_result ss2); simpl; rewrite posts_app; lia.
Qed.

Lemma process_item_begin_miss item model d w :
  has_text item = true ->
  cache_get w d (text_of item) model = Miss ->
  let f := cache_path d (text_of item) model in
  process_item_begin item model (Some d) w
  = (Await (text_of item) (Some f), mkdir d w,
     (EvMkdir d :: snd (cache_read (mkdir d w) f)
        ++ [ollama_request (text_of item) model])%list).
Proof.
  intros Ht Hmiss. unfold process_item_begin. fold (text_of item).
  unfold has_text in Ht. rewrite Ht. simpl. unfold cache_get in Hmiss.
  destruct (cache_read (mkdir d w) _) as [r tr]. simpl in Hmiss. by subst r.
Qed.

Lemma process_item_begin_hit item model d w v :
  has_text item = true ->
  cache_get w d (text_of item) model = Hit v ->
  exists tr,
    process_item_begin item model (Some d) w
    = (Done (Returned (dict_set "categories" v item)), mkdir d w, tr)
    /\ posts tr = 0.
Proof.
  intros Ht Hhit. unfold process_item_begin. fold (text_of item).
  unfold has_text in Ht. rewrite Ht. simpl. unfold cache_get in Hhit.
  pose proof (posts_cache_read (mkdir d w) (cache_path d (text_of item) model))
    as Hp.
  destruct (cache_read (mkdir d w) _) as [r tr]. simpl in *. subst r.
  eexists. split; [reflexivity |]. done.
Qed.

Lemma posts_begin_miss item model d w :
  has_text item = true ->
  cache_get w d (text_of item) model = Miss ->
  posts (snd (process_item_begin item model (Some d) w)) = 1.
Proof.
  intros Ht Hmiss. rewrite (process_item_begin_miss _ _ _ _ Ht Hmiss).
  cbn [snd posts is_post]. by rewrite posts_app, posts_cache_read.
Qed.

Lemma mapM_single_done (item r : dict) (s : dict * step) :
  mapM slot_result (<[0 := (item, Done (Returned r))]> [s]) = Some [r].
Proof. reflexivity. Qed.

(** One window of one record that misses the cache: with a reply within
    the contract the record is returned and its cache file written. *)
Lemma gather_single_miss i item model d reply latency w :
  has_text item = true ->
  cache_get w d (text_of item) model = Miss ->
  reply_in_contract (reply (i + 0)) ->
  exists r w1 tr categories,
    gather i [item] model (Some d) reply latency w = (Results [r], w1, tr)
    /\ posts tr = 1
    /\ d ∈ dirs w1
    /\ files w1 !! cache_path d (text_of item) model
       = Some (Doc (cache_entry (text_of item) categories)).
Proof.
  intros Ht Hmiss Hc.
  pose proof (posts_gather_begin i [item] model (Some d) reply latency w) as Hp.
  cbn [begin_all] in Hp.
  pose proof (posts_begin_miss _ _ _ _ Ht Hmiss) as Hp1.
  revert Hp. unfold gather. cbn [begin_all].
  destruct (process_item_begin item model (Some d) w) as [[s w0] tr0] eqn:Eb.
  rewrite (process_item_begin_miss _ _ _ _ Ht Hmiss) in Eb.
  injection Eb as <- <- <-.
  cbn [first_raised pending_from completion_order foldr insert_by resume_all].
  change ([(item, Await (text_of item)
                    (Some (cache_path d (text_of item) model)))] !! 0)
    with (Some (item, Await (text_of item)
                        (Some (cache_path d (text_of item) model)))).
  unfold process_item_resume.
  destruct (ollama_result_contract _ Hc) as (response & tr1 & ->).
  cbn [cache_write]. rewrite mapM_single_done. intros Hp.
  eexists _, _, _, _. split; [reflexivity |]. split; [| split].
  - cbn [snd] in Hp. rewrite Hp. cbn [snd] in Hp1.
    rewrite app_nil_r. exact Hp1.
  - simpl. apply elem_of_union. right. by apply elem_of_singleton.
  - simpl. apply lookup_insert_eq.
Qed.

(** X22. The cache does not serve a text twice within one window. Two
    records with the same text that miss the cache, in one window of two,
    both send an inference request; in two windows of one, the second record
    is served from the cache file that the first has written, and one request
    is sent in all. *)
Theorem duplicates_in_one_window (item : dict) (model d : string)
    (reply : nat -> http_reply) (latency : nat -> nat) (w : world) :
  has_text item = true ->
  cache_get w d (text_of item) model = Miss ->
  (forall k, reply_in_contract (reply k)) ->
  posts (effects (process_batch [item; item] 2 model (Some d) reply latency w))
  = 2
  /\ posts (effects (process_batch [item; item] 1 model (Some d) reply
                       latency w))
     = 1.
Proof.
  intros Ht Hmiss Hc. split.
  - unfold process_batch, py_range, effects. cbn [Z.eqb Z.ltb Z.compare].
    change (map (fun k => k * Z.to_nat 2)
              (seq 0 ((length [item; item] + Z.to_nat 2 - 1) / Z.to_nat 2)))
      with [0].
    cbn [run_windows]. change (take (Z.to_nat 2) (drop 0 [item; item]))
      with [item; item].
    pose proof (posts_gather_begin 0 [item; item] model (Some d) reply
                  latency w) as Hp.
    destruct (gather 0 [item; item] model (Some d) reply latency w)
      as [[g w1] tr].
    assert (posts tr = 2) as Htr.
    { cbn [snd] in Hp. rewrite Hp. cbn [begin_all].
      pose proof (posts_begin_miss _ _ _ _ Ht Hmiss) as H1.
      destruct (process_item_begin item model (Some d) w)
        as [[s1 w2] tr1] eqn:E1.
      rewrite (process_item_begin_miss _ _ _ _ Ht Hmiss) in E1.
      injection E1 as <- <- Htr1.
      assert (cache_get (mkdir d w) d (text_of item) model = Miss) as Hmiss'
        by (unfold cache_get; by rewrite mkdir_idemp).
      pose proof (posts_begin_miss _ _ _ _ Ht Hmiss') as H2.
      destruct (process_item_begin item model (Some d) (mkdir d w))
        as [[s2 w3] tr2].
      cbn [snd] in *. rewrite !posts_app, H1, H2. reflexivity. }
    destruct g; cbn [snd]; rewrite ?posts_app, Htr; reflexivity.
  - unfold process_batch, py_range, effects. cbn [Z.eqb Z.ltb Z.compare].
    change (map (fun k => k * Z.to_nat 1)
              (seq 0 ((length [item; item] + Z.to_nat 1 - 1) / Z.to_nat 1)))
      with [0; 1].
    cbn [run_windows].
    change (take (Z.to_nat 1) (drop 0 [item; item])) with [item].
    change (take (Z.to_nat 1) (drop 1 [item; item])) with [item].
    destruct (gather_single_miss 0 item model d reply latency w Ht Hmiss
                (Hc _)) as (r & w1 & tr1 & cats & -> & Hp1 & Hd & Hf).
    assert (cache_get w1 d (text_of item) model
            = Hit (JList (map JStr cats))) as Hhit.
    { unfold cache_get. rewrite (mkdir_exists _ _ Hd).
      by rewrite (cache_read_entry _ _ _ _ Hf). }
    pose proof (posts_gather_begin 1 [item] model (Some d) reply latency w1)
      as Hp.
    cbn [begin_all] in Hp.
    destruct (process_item_begin_hit _ _ _ _ _ Ht Hhit) as (tr & Eb & Hp2).
    rewrite Eb in Hp. cbn [snd] in Hp.
    destruct (gather 1 [item] model (Some d) reply latency w1)
      as [[g w2] tr2].
    cbn [snd] in Hp.
    assert (posts tr2 = 0) as Htr2 by (rewrite Hp, posts_app, Hp2; reflexivity).
    destruct g; cbn [snd]; rewrite ?posts_app, Hp1, Htr2; reflexivity.
Qed.

Lemma duplicates_in_one_window_witness :
  posts (effects (process_batch
                    [ [("description", JStr "We need more funding")];
                      [("description", JStr "We need more funding")] ]
                    2 "llama3" (Some "cache") example_reply (fun k => k)
                    (World ∅ ∅)))
  = 2.
Proof.
  apply (duplicates_in_one_window
           [("description", JStr "We need more funding")] "llama3" "cache"
           example_reply (fun k => k) (World ∅ ∅)).
  - reflexivity.
  - vm_compute. reflexivity.
  - intros [|k]; simpl; intros _; eauto.
Defined.
